(** * RankBuddy: keyword aggregation, categorisation and difficulty scoring

    A shallow embedding of the engine of [rankbuddy_app.py] (the classes
    [RealTimeKeywordAPI] and [RealTimeSEOAnalyzer] are the same, line for
    line, in [rankbuddy_app_realtime.py]) and of the offline analyzer
    [SEOAnalyzer] of [rankbuddy_app_backup.py].

    Conventions.
    - Python [str] values are [string]s.  The case and whitespace functions
      follow Python on the ASCII range (code points 0 to 127); a character
      above 127 is uncased and is not whitespace.
    - Python numbers that may be [float] are rationals ([Q]): the arithmetic
      is the exact one, without binary64 rounding.  Equality of scores is
      [Qeq] ([==]).
    - A Python [set] of strings is a [gset string]; the order in which a
      set is iterated is unspecified in Python and is a parameter
      ([set_iter]) of the functions that iterate one. *)

From Stdlib Require Import Ascii QArith Qround Qminmax Lqa.
From stdpp Require Import gmap strings list sorting.

Local Open Scope string_scope.
Local Open Scope list_scope.

(** ** Python text primitives *)

Module Py.

(** [c.isspace()] on the ASCII range: TAB, LF, VT, FF, CR, FS, GS, RS, US
    and the space. *)
Definition isspace (c : ascii) : bool :=
  let n := nat_of_ascii c in
  ((9 <=? n)%nat && (n <=? 13)%nat) || ((28 <=? n)%nat && (n <=? 32)%nat).

Definition isupper (c : ascii) : bool :=
  let n := nat_of_ascii c in (65 <=? n)%nat && (n <=? 90)%nat.

Definition islower (c : ascii) : bool :=
  let n := nat_of_ascii c in (97 <=? n)%nat && (n <=? 122)%nat.

Definition isdigit (c : ascii) : bool :=
  let n := nat_of_ascii c in (48 <=? n)%nat && (n <=? 57)%nat.

Definition lower_char (c : ascii) : ascii :=
  if isupper c then ascii_of_nat (nat_of_ascii c + 32) else c.

Definition upper_char (c : ascii) : ascii :=
  if islower c then ascii_of_nat (nat_of_ascii c - 32) else c.

(** [c.isascii()] *)
Definition isascii (c : ascii) : bool := (nat_of_ascii c <? 128)%nat.

(** [s.lower()], on ASCII text: the length is kept.  (Outside ASCII
    Python's [lower] may give a longer string.) *)
Fixpoint lower (s : string) : string :=
  match s with
  | EmptyString => EmptyString
  | String c s' => String (lower_char c) (lower s')
  end.

(** [s.title()], on ASCII text: a cased character is upper-cased when the
    character before it is not cased, and lower-cased otherwise.  (Outside
    ASCII the title case of a character may be several characters.) *)
Fixpoint title_from (previous_is_cased : bool) (s : string) : string :=
  match s with
  | EmptyString => EmptyString
  | String c s' =>
      if islower c then
        String (if previous_is_cased then c else upper_char c) (title_from true s')
      else if isupper c then
        String (if previous_is_cased then lower_char c else c) (title_from true s')
      else String c (title_from false s')
  end.

Definition title (s : string) : string := title_from false s.

(** [s.lstrip()], [s.rstrip()], [s.strip()] *)
Fixpoint lstrip (s : string) : string :=
  match s with
  | EmptyString => EmptyString
  | String c s' => if isspace c then lstrip s' else s
  end.

Fixpoint rstrip (s : string) : string :=
  match s with
  | EmptyString => EmptyString
  | String c s' =>
      match rstrip s' with
      | EmptyString => if isspace c then EmptyString else String c EmptyString
      | r => String c r
      end
  end.

Definition strip (s : string) : string := rstrip (lstrip s).

(** [s.split()]: the maximal runs of non-whitespace characters, in order. *)
Fixpoint split (s : string) : list string :=
  match s with
  | EmptyString => []
  | String c s' =>
      if isspace c then split s'
      else
        match s' with
        | EmptyString => [String c EmptyString]
        | String c' _ =>
            if isspace c' then String c EmptyString :: split s'
            else
              match split s' with
              | w :: ws => String c w :: ws
              | [] => [String c EmptyString]
              end
        end
  end.

(** [t in s] for strings: [t] is a contiguous substring of [s]. *)
Fixpoint contains (t s : string) : bool :=
  String.prefix t s ||
  match s with
  | EmptyString => false
  | String _ s' => contains t s'
  end.

(** [s.count(t)] for a non-empty [t]: occurrences counted from the left
    without overlap.  [skip] is the number of characters of the last match
    still to be passed over. *)
Fixpoint count_from (skip : nat) (t s : string) : nat :=
  match s with
  | EmptyString => 0
  | String _ s' =>
      match skip with
      | S k => count_from k t s'
      | O =>
          if String.prefix t s
          then S (count_from (String.length t - 1) t s')
          else count_from 0 t s'
      end
  end.

Definition count (t s : string) : nat := count_from 0 t s.

(** [sum(len(word) for word in words)] *)
Definition sum_len (words : list string) : nat :=
  foldr (fun word acc => (String.length word + acc)%nat) 0%nat words.

(** [a / b] on numbers: [ZeroDivisionError] when [b] is zero. *)
Definition truediv (a b : Q) : option Q :=
  if Qeq_bool b 0 then None else Some (a / b)%Q.



(** [s[:n]] *)
Fixpoint slice_to (n : nat) (s : string) : string :=
  match n, s with
  | S n', String c s' => String c (slice_to n' s')
  | _, _ => EmptyString
  end.

(** [s.lstrip(chars)], [s.rstrip(chars)], [s.strip(chars)] for a set of
    characters given by its membership test. *)
Fixpoint lstrip_with (p : ascii -> bool) (s : string) : string :=
  match s with
  | EmptyString => EmptyString
  | String c s' => if p c then lstrip_with p s' else s
  end.

Fixpoint rstrip_with (p : ascii -> bool) (s : string) : string :=
  match s with
  | EmptyString => EmptyString
  | String c s' =>
      match rstrip_with p s' with
      | EmptyString => if p c then EmptyString else String c EmptyString
      | r => String c r
      end
  end.

Definition strip_with (p : ascii -> bool) (s : string) : string :=
  rstrip_with p (lstrip_with p s).

(** [re.sub(r'[class]+', rep, s)] for a character class given by its
    membership test: every maximal run of characters of the class is
    replaced by one [rep].  [in_run] tells that the character before was in
    the class. *)
Fixpoint re_sub_runs (class : ascii -> bool) (rep : string) (in_run : bool)
    (s : string) : string :=
  match s with
  | EmptyString => EmptyString
  | String c s' =>
      if class c then
        if in_run then re_sub_runs class rep true s'
        else rep +:+ re_sub_runs class rep true s'
      else String c (re_sub_runs class rep false s')
  end.

(** A [dict] with string keys: the items in insertion order.  [d[k] = v]
    replaces the value of a key that is present, in place, and appends a new
    key. *)
Fixpoint dict_set {V : Type} (k : string) (v : V) (d : list (string * V))
    : list (string * V) :=
  match d with
  | [] => [(k, v)]
  | (k', v') :: d' =>
      if String.eqb k k' then (k', v) :: d' else (k', v') :: dict_set k v d'
  end.

(** [d.get(k, default)] *)
Fixpoint dict_get {V : Type} (k : string) (d : list (string * V)) (default : V)
    : V :=
  match d with
  | [] => default
  | (k', v') :: d' => if String.eqb k k' then v' else dict_get k d' default
  end.

(** [x < y] on numbers *)
Definition lt (x y : Q) : bool := negb (Qle_bool y x).

End Py.

(** ** [RealTimeKeywordAPI]: the lexical difficulty heuristic *)

Module RealTimeKeywordAPI.

(** The four network-backed methods, as the responses they return for a
    keyword.  Each of them returns [[]] when its request fails. *)
Record t := {
  get_google_autocomplete : string -> list string;
  get_google_related_searches : string -> list string;
  get_datamuse_related : string -> list string;
  get_wikipedia_terms : string -> list string
}.

Definition high_competition_terms : list string :=
  ["best"; "top"; "free"; "review"; "buy"; "cheap"; "price"].

(** [sum(5 for term in high_competition_terms if term in keyword.lower())] *)
Definition competition_boost (keyword : string) : Q :=
  foldr (fun term acc =>
           if Py.contains term (Py.lower keyword) then (5 + acc)%Q else acc)
        0%Q high_competition_terms.

(** The body of the [try] block of [estimate_keyword_difficulty]; [None]
    stands for a raised exception. *)
Definition estimate_keyword_difficulty_try (keyword : string) : option Q :=
  let words := Py.split (Py.lower keyword) in
  let word_count := length words in
  avg_length ←
    (match words with
     | [] => Some 0%Q
     | _ => Py.truediv (inject_Z (Z.of_nat (Py.sum_len words)))
                       (inject_Z (Z.of_nat (length words)))
     end);
  let base_difficulty :=
    Qmax 10 (80 - inject_Z (Z.of_nat word_count) * 15 - avg_length * 2)%Q in
  let difficulty := Qmin 95 (base_difficulty + competition_boost keyword)%Q in
  Some difficulty.

(** [estimate_keyword_difficulty]: the [except] branch returns the default
    medium difficulty. *)
Definition estimate_keyword_difficulty (keyword : string) : Q :=
  match estimate_keyword_difficulty_try keyword with
  | Some difficulty => difficulty
  | None => 50%Q
  end.

End RealTimeKeywordAPI.

(** ** [RealTimeSEOAnalyzer]: aggregation, categorisation, content plan *)

Module RealTimeSEOAnalyzer.

(** The condition of the filtering loop:
    [3 <= len(keyword) <= 100 and len(keyword.split()) <= 6]. *)
Definition passes_filter (keyword : string) : bool :=
  (3 <=? String.length keyword)%nat && (String.length keyword <=? 100)%nat
  && (length (Py.split keyword) <=? 6)%nat.

(** The set [all_keywords] as it stands when the filtering loop starts. *)
Definition candidate_keywords (api : RealTimeKeywordAPI.t)
    (seed_keyword : string) : gset string :=
  let all_keywords : gset string := ∅ in
  let all_keywords := all_keywords ∪ {[ Py.lower seed_keyword ]} in
  let google_suggestions :=
    RealTimeKeywordAPI.get_google_autocomplete api seed_keyword in
  let all_keywords := all_keywords ∪ list_to_set google_suggestions in
  let google_related :=
    RealTimeKeywordAPI.get_google_related_searches api seed_keyword in
  let all_keywords := all_keywords ∪ list_to_set google_related in
  let datamuse_words :=
    RealTimeKeywordAPI.get_datamuse_related api seed_keyword in
  let all_keywords :=
    foldl (fun acc word =>
             acc ∪ {[ word +:+ " " +:+ seed_keyword ]}
                 ∪ {[ seed_keyword +:+ " " +:+ word ]})
          all_keywords datamuse_words in
  let wiki_terms :=
    RealTimeKeywordAPI.get_wikipedia_terms api seed_keyword in
  foldl (fun acc term =>
           if (length (Py.split term) <=? 3)%nat
           then acc ∪ {[ Py.lower term +:+ " " +:+ seed_keyword ]}
                    ∪ {[ seed_keyword +:+ " " +:+ Py.lower term ]}
           else acc)
        all_keywords wiki_terms.

(** The filtering loop over an iteration of [all_keywords]. *)
Definition filter_and_clean (keywords : list string) : list string :=
  foldl (fun filtered_keywords keyword =>
           if passes_filter keyword
           then filtered_keywords ++ [Py.lower (Py.strip keyword)]
           else filtered_keywords)
        [] keywords.

Section SetIteration.

(** The order in which Python iterates a set. *)
Variable set_iter : gset string -> list string.

(** [generate_real_keywords]: the filtering loop runs over an iteration of
    [all_keywords]; the result is [list(set(filtered_keywords))[:50]]. *)
Definition generate_real_keywords (api : RealTimeKeywordAPI.t)
    (seed_keyword : string) : list string :=
  let all_keywords := candidate_keywords api seed_keyword in
  let filtered_keywords := filter_and_clean (set_iter all_keywords) in
  take 50 (set_iter (list_to_set filtered_keywords)).

End SetIteration.

(** [categorize_keywords] *)
Definition categorize_keywords (keywords : list string)
    : list string * list string :=
  foldl (fun '(short_tail, long_tail) keyword =>
           let word_count := length (Py.split keyword) in
           if (word_count <=? 2)%nat
           then (short_tail ++ [keyword], long_tail)
           else (short_tail, long_tail ++ [keyword]))
        ([], []) keywords.

Record ContentStructure := {
  titles : list string;
  headings : list string;
  meta_description : string;
  target_length : Z;
  keyword_density : Q
}.

(** [suggest_content_structure] *)
Definition suggest_content_structure (keyword : string)
    (related_keywords : list string) : ContentStructure :=
  let kt := Py.title keyword in
  {| titles :=
       [ "Complete Guide to " +:+ kt;
         "How to Master " +:+ kt +:+ ": Expert Tips";
         kt +:+ ": Everything You Need to Know";
         "Ultimate " +:+ kt +:+ " Tutorial for Beginners";
         "Advanced " +:+ kt +:+ ": Best Practices" ];
     headings :=
       [ "What is " +:+ kt +:+ "?";
         "Why " +:+ kt +:+ " Matters in 2024";
         "Getting Started with " +:+ kt;
         "Advanced " +:+ kt +:+ " Strategies";
         "Common " +:+ kt +:+ " Mistakes to Avoid";
         "Best " +:+ kt +:+ " Tools and Resources";
         "Real-World " +:+ kt +:+ " Examples";
         kt +:+ " Future Trends" ];
     meta_description :=
       "Master " +:+ keyword +:+
       " with our comprehensive guide. Learn proven strategies, avoid common mistakes, and get expert tips for success.";
     target_length := 2000;
     keyword_density := 1.5 |}.




(** [analyze_keyword_difficulty]: the dict of the scores. *)
Definition analyze_keyword_difficulty (keywords : list string)
    : list (string * Q) :=
  foldl (fun difficulties keyword =>
           Py.dict_set keyword
             (RealTimeKeywordAPI.estimate_keyword_difficulty keyword)
             difficulties)
        [] keywords.

End RealTimeSEOAnalyzer.

(** ** [SEOAnalyzer]: the frequency-informed heuristic of the offline app *)

Module SEOAnalyzer.

(** [load_word_frequencies] *)
Definition word_frequencies : gmap string Z :=
  list_to_map
    [ ("how", 850000); ("what", 750000); ("best", 680000); ("top", 620000);
      ("guide", 450000); ("tips", 380000); ("review", 320000); ("free", 280000);
      ("tutorial", 240000); ("business", 220000); ("marketing", 180000);
      ("seo", 160000); ("growth", 140000); ("startup", 120000); ("tools", 110000);
      ("strategy", 95000); ("success", 85000); ("online", 75000); ("digital", 65000);
      ("beginner", 55000); ("advanced", 45000); ("complete", 40000); ("ultimate", 35000);
      ("simple", 30000); ("easy", 28000); ("quick", 25000); ("step", 22000);
      ("effective", 20000); ("proven", 18000); ("examples", 16000); ("case", 15000);
      ("study", 14000); ("method", 13000); ("technique", 12000); ("approach", 11000);
      ("framework", 10000); ("process", 9500); ("system", 9000); ("hack", 8500);
      ("secret", 8000); ("trick", 7500); ("mistake", 7000); ("common", 6500);
      ("popular", 6000); ("trending", 5500); ("latest", 5000); ("new", 4800);
      ("updated", 4600); ("modern", 4400); ("profitable", 4200); ("money", 4000);
      ("entrepreneur", 3800); ("founder", 3600); ("indie", 3400); ("solo", 3200);
      ("small", 3000); ("website", 2800); ("blog", 2600); ("content", 2400);
      ("optimization", 2200); ("rank", 2000); ("ranking", 1800); ("google", 1600);
      ("search", 1400); ("traffic", 1200); ("conversion", 1000); ("funnel", 900);
      ("leads", 800); ("sales", 700); ("revenue", 600); ("profit", 500) ]%Z.

(** [clean_text]: [re.sub(r'[^a-zA-Z0-9\s]', '', text.lower())] *)
Definition keeps (c : ascii) : bool :=
  Py.islower c || Py.isupper c || Py.isdigit c || Py.isspace c.

Fixpoint remove_special (s : string) : string :=
  match s with
  | EmptyString => EmptyString
  | String c s' =>
      if keeps c then String c (remove_special s') else remove_special s'
  end.

Definition clean_text (text : string) : string :=
  remove_special (Py.lower text).

(** The loop that adds up the table frequencies of the words. *)
Definition total_frequency_of (words : list string) : Z :=
  foldl (fun total_frequency word =>
           match word_frequencies !! word with
           | Some f => (total_frequency + f)%Z
           | None => total_frequency
           end)
        0%Z words.

(** [estimate_keyword_difficulty]; [None] stands for a raised exception
    (the method has no handler). *)
Definition estimate_keyword_difficulty (keyword : string) : option Q :=
  let words := Py.split (clean_text keyword) in
  let word_count := length words in
  avg_word_length ←
    (match words with
     | [] => Some 0%Q
     | _ => Py.truediv (inject_Z (Z.of_nat (Py.sum_len words)))
                       (inject_Z (Z.of_nat (length words)))
     end);
  let total_frequency := total_frequency_of words in
  let frequency_score := Qmin (inject_Z total_frequency / 10000) 50 in
  let length_score := Qmax 0 (30 - inject_Z (Z.of_nat word_count) * 5)%Q in
  let word_length_score := Qmax 0 (20 - avg_word_length * 2)%Q in
  let difficulty := (frequency_score + length_score + word_length_score)%Q in
  Some (Qmin (Qmax difficulty 0) 100).

(** [load_common_words] *)
Definition common_words : gset string :=
  list_to_set
    [ "how"; "what"; "why"; "when"; "where"; "guide"; "tutorial"; "tips";
      "best"; "top"; "review"; "comparison"; "vs"; "versus"; "ultimate";
      "complete"; "beginner"; "advanced"; "step"; "steps"; "easy"; "simple";
      "quick"; "fast"; "effective"; "proven"; "examples"; "case"; "study";
      "free"; "tools"; "software"; "app"; "platform"; "service"; "solution";
      "strategy"; "method"; "technique"; "approach"; "way"; "ways"; "ideas";
      "checklist"; "framework"; "process"; "system"; "hack"; "hacks";
      "secret"; "secrets"; "trick"; "tricks"; "mistake"; "mistakes";
      "common"; "popular"; "trending"; "latest"; "new"; "updated"; "modern";
      "business"; "marketing"; "growth"; "success"; "profitable"; "money";
      "startup"; "entrepreneur"; "founder"; "indie"; "solo"; "small";
      "online"; "digital"; "internet"; "web"; "website"; "blog"; "content";
      "seo"; "optimization"; "rank"; "ranking"; "google"; "search"; "traffic" ].

Definition long_tail_modifiers : list string :=
  [ "for beginners"; "step by step"; "in 2024"; "complete guide";
    "best practices"; "case study"; "examples"; "tutorial";
    "how to"; "why you need"; "mistakes to avoid"; "tips and tricks";
    "free"; "online"; "software"; "tools"; "strategy"; "tips" ].

(** The three request methods of [KeywordAPI], as the lists they return
    for a keyword; each of them catches its exceptions and returns [[]]. *)
Record sources := {
  get_google_suggestions : string -> list string;
  get_related_keywords_from_datamuse : string -> list string;
  get_wiki_related_terms : string -> list string
}.

(** [list.sort(key=lambda x: x[1], reverse=True)]: a stable sort by
    decreasing key, as the insertion, from the last item to the first, of
    each item in front of the first one whose key is not greater. *)
Fixpoint insert_desc (x : string * Q) (l : list (string * Q))
    : list (string * Q) :=
  match l with
  | [] => [x]
  | y :: l' => if Py.lt x.2 y.2 then y :: insert_desc x l' else x :: l
  end.

Definition sort_desc (l : list (string * Q)) : list (string * Q) :=
  foldr insert_desc [] l.

Section RelatedKeywords.

(** [difflib.SequenceMatcher(None, a, b).ratio()], of the standard
    library. *)
Variable ratio : string -> string -> Q.
Variable set_iter : gset string -> list string.
Variable api : sources.

(** [calculate_similarity] *)
Definition calculate_similarity (text1 text2 : string) : Q :=
  ratio (Py.lower text1) (Py.lower text2).

(** The set [related_keywords] when the filtering loop starts. *)
Definition related_candidates (seed_keyword : string) (use_api : bool)
    : gset string :=
  let seed_words := Py.split (clean_text seed_keyword) in
  let related_keywords : gset string := ∅ in
  let related_keywords := related_keywords ∪ {[ Py.lower seed_keyword ]} in
  let related_keywords :=
    if use_api then
      let google_suggestions := get_google_suggestions api seed_keyword in
      let related_keywords := related_keywords ∪ list_to_set google_suggestions in
      let datamuse_words := get_related_keywords_from_datamuse api seed_keyword in
      let related_keywords :=
        foldl (fun acc word =>
                 acc ∪ {[ word +:+ " " +:+ seed_keyword ]}
                     ∪ {[ seed_keyword +:+ " " +:+ word ]}
                     ∪ {[ word ]})
              related_keywords datamuse_words in
      let wiki_terms := get_wiki_related_terms api seed_keyword in
      foldl (fun acc term =>
               acc ∪ {[ term +:+ " " +:+ seed_keyword ]}
                   ∪ {[ seed_keyword +:+ " " +:+ term ]})
            related_keywords wiki_terms
    else related_keywords in
  let related_keywords :=
    foldl (fun acc word =>
             foldl (fun acc common_word =>
                      acc ∪ {[ common_word +:+ " " +:+ word ]}
                          ∪ {[ common_word +:+ " " +:+ seed_keyword ]}
                          ∪ {[ word +:+ " " +:+ common_word ]}
                          ∪ {[ seed_keyword +:+ " " +:+ common_word ]})
                   acc (set_iter common_words))
          related_keywords seed_words in
  foldl (fun acc modifier =>
           acc ∪ {[ seed_keyword +:+ " " +:+ modifier ]}
               ∪ {[ modifier +:+ " " +:+ seed_keyword ]})
        related_keywords long_tail_modifiers.

(** The test of the filtering loop:
    [len(keyword.split()) <= 6 and len(keyword) >= 3]. *)
Definition keeps_keyword (keyword : string) : bool :=
  (length (Py.split keyword) <=? 6)%nat && (3 <=? String.length keyword)%nat.

(** [generate_related_keywords] *)
Definition generate_related_keywords (seed_keyword : string)
    (max_keywords : nat) (use_api : bool) : list string :=
  let related_keywords := related_candidates seed_keyword use_api in
  let filtered_keywords :=
    foldl (fun filtered_keywords keyword =>
             if keeps_keyword keyword
             then filtered_keywords
                  ++ [(keyword, calculate_similarity seed_keyword keyword)]
             else filtered_keywords)
          [] (set_iter related_keywords) in
  let filtered_keywords := sort_desc filtered_keywords in
  (take (max_keywords * 2) filtered_keywords).*1.

End RelatedKeywords.

(** [generate_url_slug]: [re.sub(r'\\s+', '-', clean_text(keyword))] *)
Definition generate_url_slug (keyword : string) : string :=
  let slug := clean_text keyword in
  Py.re_sub_runs Py.isspace "-" false slug.

Record Snippet := {
  snippet_title : string;
  snippet_url : string;
  snippet_meta_description : string;
  title_length : nat;
  meta_length : nat
}.

(** [preview_serp_snippet] *)
Definition preview_serp_snippet (title meta_description url : string) : Snippet :=
  let display_title :=
    if (60 <? String.length title)%nat
    then Py.slice_to 60 title +:+ "..." else title in
  let display_meta :=
    if (160 <? String.length meta_description)%nat
    then Py.slice_to 160 meta_description +:+ "..." else meta_description in
  {| snippet_title := display_title;
     snippet_url := url;
     snippet_meta_description := display_meta;
     title_length := String.length title;
     meta_length := String.length meta_description |}.

End SEOAnalyzer.

(** ** The request methods of [RealTimeKeywordAPI]

    What a request gives back: an exception, or a response with its status
    code and, of the decoded JSON array [data], the list [data[1]] ([None]
    when [data] has no second element). *)

Inductive reply :=
  | Raised
  | Response (status_code : Z) (data1 : option (list string)).

(** The list [data[1]] when the guards
    [response.status_code == 200], [len(data) > 1 and data[1]] all hold. *)
Definition usable (r : reply) : option (list string) :=
  match r with
  | Response 200 (Some (x :: l)) => Some (x :: l)
  | _ => None
  end.

(** A Python string is true when it is not empty. *)
Definition truthy (s : string) : bool := negb (String.eqb s "").

Module RealTimeFetch.

(** [get_google_autocomplete], over the reply to its one request. *)
Definition get_google_autocomplete (r : reply) (keyword : string) : list string :=
  match r with
  | Raised => []
  | _ =>
      let suggestions :=
        match usable r with
        | Some data1 =>
            List.filter (fun s => truthy s && negb (String.eqb s keyword)) data1
        | None => []
        end in
      take 20 suggestions
  end.

Definition variations (keyword : string) : list string :=
  [ "how to " +:+ keyword;
    "what is " +:+ keyword;
    "best " +:+ keyword;
    keyword +:+ " guide";
    keyword +:+ " tutorial";
    keyword +:+ " tips";
    keyword +:+ " examples";
    keyword +:+ " tools";
    keyword +:+ " free";
    keyword +:+ " 2024" ].

Section Requests.

(** The service: the reply to the request for a query. *)
Variable google : string -> reply.
Variable set_iter : gset string -> list string.

(** The list [related] when the loop over the variations ends; a request
    that raises is skipped. *)
Definition related_of_variations (keyword : string) : list string :=
  foldl (fun related variation =>
           match usable (google variation) with
           | Some data1 =>
               related ++
               List.filter
                 (fun s => truthy s
                           && Py.contains (Py.lower keyword) (Py.lower s))
                 data1
           | None => related
           end)
        [] (variations keyword).

(** [get_google_related_searches]: [list(set(related))[:30]] *)
Definition get_google_related_searches (keyword : string) : list string :=
  take 30 (set_iter (list_to_set (related_of_variations keyword))).

End Requests.

Section Datamuse.

(** What a request to the word service gives back: an exception, or a
    response with its status code and the words of the items of [data]
    that have one. *)
Inductive words_reply :=
  | WordsRaised
  | WordsResponse (status_code : Z) (words : list string).

(** The replies to the three requests ([ml], [lc], [rc]). *)
Variables ml lc rc : words_reply.
Variable set_iter : gset string -> list string.

(** What a request adds to [related_words]; [None] stands for a raised
    exception. *)
Definition words_of (r : words_reply) : option (list string) :=
  match r with
  | WordsResponse 200 words => Some words
  | WordsResponse _ _ => Some []
  | WordsRaised => None
  end.

(** [get_datamuse_related]: an exception in any of the three requests
    gives [[]]. *)
Definition get_datamuse_related : list string :=
  match words_of ml, words_of lc, words_of rc with
  | Some w1, Some w2, Some w3 =>
      let related_words := (w1 ++ w2) ++ w3 in
      take 25 (set_iter (list_to_set related_words))
  | _, _, _ => []
  end.

End Datamuse.

End RealTimeFetch.

(** ** Computations of [main] in the real-time app *)

Module RealTimeMain.

Definition is_hyphen (c : ascii) : bool := Ascii.eqb c "-".

(** [url_slug]:
    [re.sub(r'[^a-z0-9]+', '-', seed_keyword.lower()).strip('-')] *)
Definition url_slug (seed_keyword : string) : string :=
  Py.strip_with is_hyphen
    (Py.re_sub_runs (fun c => negb (Py.islower c || Py.isdigit c)) "-" false
       (Py.lower seed_keyword)).

(** [title_display] and [meta_display] of the SERP preview. *)
Definition title_display (custom_title : string) : string :=
  if (60 <? String.length custom_title)%nat
  then Py.slice_to 60 custom_title +:+ "..." else custom_title.

Definition meta_display (meta_desc : string) : string :=
  if (160 <? String.length meta_desc)%nat
  then Py.slice_to 160 meta_desc +:+ "..." else meta_desc.

(** [all_difficulties = list(st.session_state.difficulties.values())] *)
Definition all_difficulties (difficulties : list (string * Q)) : list Q :=
  difficulties.*2.

(** [sum(1 for d in all_difficulties if ...)] for the three metrics. *)
Definition count_if (test : Q -> bool) (ds : list Q) : nat :=
  foldl (fun total d => if test d then (total + 1)%nat else total) 0%nat ds.

Definition easy_count (ds : list Q) : nat :=
  count_if (fun d => Py.lt d 30) ds.
Definition medium_count (ds : list Q) : nat :=
  count_if (fun d => Qle_bool 30 d && Py.lt d 70) ds.
Definition hard_count (ds : list Q) : nat :=
  count_if (fun d => Qle_bool 70 d) ds.

Inductive colour := Green | Yellow | Red.

(** The mark in front of a listed keyword:
    green if [difficulty < 30], else yellow if [difficulty < 70], else red. *)
Definition colour_of (difficulty : Q) : colour :=
  if Py.lt difficulty 30 then Green
  else if Py.lt difficulty 70 then Yellow else Red.



(** The keyword lists of [generate_ai_prompt]. *)
Definition easy_keywords (difficulties : list (string * Q)) : list string :=
  (List.filter (fun '(kw, diff) => Py.lt diff 30) difficulties).*1.

Definition medium_keywords (difficulties : list (string * Q)) : list string :=
  (List.filter (fun '(kw, diff) => Qle_bool 30 diff && Py.lt diff 50)
               difficulties).*1.

Definition secondary_keywords (difficulties : list (string * Q)) : list string :=
  take 12 (take 8 (easy_keywords difficulties)
           ++ take 5 (medium_keywords difficulties)).

End RealTimeMain.

(** ** [KeywordAPI] of the offline app: difficulty from a result count *)

Module KeywordAPI.





End KeywordAPI.

(** ** Specification-side definitions

    The quantities in which the difficulty policies are described. *)

Module Policy.

Definition token_count (tokens : list string) : Q :=
  inject_Z (Z.of_nat (length tokens)).

Definition avg_token_length (tokens : list string) : Q :=
  match tokens with
  | [] => 0
  | _ => inject_Z (Z.of_nat (Py.sum_len tokens)) / token_count tokens
  end.

(** The number of vocabulary terms found in the lower-cased keyword. *)
Definition terms_present (keyword : string) : nat :=
  length (List.filter (fun term => Py.contains term (Py.lower keyword))
                      RealTimeKeywordAPI.high_competition_terms).

(** The number of occurrences of vocabulary terms in the lower-cased
    keyword. *)
Definition term_occurrences (keyword : string) : nat :=
  foldr (fun term acc => (Py.count term (Py.lower keyword) + acc)%nat) 0%nat
        RealTimeKeywordAPI.high_competition_terms.

(** The lexical policy with the bonus counted per term present. *)
Definition lexical (keyword : string) : Q :=
  let tokens := Py.split (Py.lower keyword) in
  Qmin 95 (Qmax 10 (80 - 15 * token_count tokens - 2 * avg_token_length tokens)
           + 5 * inject_Z (Z.of_nat (terms_present keyword))).

(** The lexical policy with the bonus counted per occurrence. *)
Definition lexical_per_occurrence (keyword : string) : Q :=
  let tokens := Py.split (Py.lower keyword) in
  Qmin 95 (Qmax 10 (80 - 15 * token_count tokens - 2 * avg_token_length tokens)
           + 5 * inject_Z (Z.of_nat (term_occurrences keyword))).

Definition table_frequency (word : string) : Z :=
  default 0%Z (SEOAnalyzer.word_frequencies !! word).

Definition total_frequency (tokens : list string) : Z :=
  foldr (fun word acc => (table_frequency word + acc)%Z) 0%Z tokens.

Definition clamp (lo hi x : Q) : Q := Qmax lo (Qmin hi x).

(** The frequency-informed policy over the cleaned tokens. *)
Definition frequency_informed (keyword : string) : Q :=
  let tokens := Py.split (SEOAnalyzer.clean_text keyword) in
  clamp 0 100
    (Qmin (inject_Z (total_frequency tokens) / 10000) 50
     + Qmax 0 (30 - 5 * token_count tokens)
     + Qmax 0 (20 - 2 * avg_token_length tokens)).

End Policy.

(** A set iteration enumerates the members once each, in some order. *)
Definition set_order (set_iter : gset string -> list string) : Prop :=
  forall s : gset string, set_iter s ≡ₚ elements s.


(** An API whose every request fails. *)
Definition failing_api : RealTimeKeywordAPI.t :=
  {| RealTimeKeywordAPI.get_google_autocomplete := fun _ => [];
     RealTimeKeywordAPI.get_google_related_searches := fun _ => [];
     RealTimeKeywordAPI.get_datamuse_related := fun _ => [];
     RealTimeKeywordAPI.get_wikipedia_terms := fun _ => [] |}.

(** The end-to-end scenario: two completions, two semantic words, nothing
    from the other sources. *)
Definition scenario_api : RealTimeKeywordAPI.t :=
  {| RealTimeKeywordAPI.get_google_autocomplete :=
       fun _ => ["content marketing tips"; "content marketing guide"];
     RealTimeKeywordAPI.get_google_related_searches := fun _ => [];
     RealTimeKeywordAPI.get_datamuse_related := fun _ => ["strategy"; "audience"];
     RealTimeKeywordAPI.get_wikipedia_terms := fun _ => [] |}.

(** Every source returns the empty list for [seed]. *)
Definition sources_empty (api : RealTimeKeywordAPI.t) (seed : string) : Prop :=
  RealTimeKeywordAPI.get_google_autocomplete api seed = []
  /\ RealTimeKeywordAPI.get_google_related_searches api seed = []
  /\ RealTimeKeywordAPI.get_datamuse_related api seed = []
  /\ RealTimeKeywordAPI.get_wikipedia_terms api seed = [].


(** What the filtering loop produces, as a set, does not depend on the
    order of iteration. *)
Definition cleaned_set (api : RealTimeKeywordAPI.t) (seed : string)
    (set_iter : gset string -> list string) : gset string :=
  list_to_set (RealTimeSEOAnalyzer.filter_and_clean
                 (set_iter (RealTimeSEOAnalyzer.candidate_keywords api seed))).

(** The test of the categorisation loop: [len(keyword.split()) <= 2]. *)
Definition is_short (keyword : string) : bool :=
  (length (Py.split keyword) <=? 2)%nat.

(** Tests on the characters of a string. *)
Fixpoint all_chars (p : ascii -> bool) (s : string) : bool :=
  match s with
  | EmptyString => true
  | String c s' => p c && all_chars p s'
  end.

Definition starts_with_char (p : ascii -> bool) (s : string) : bool :=
  match s with
  | EmptyString => false
  | String c _ => p c
  end.

Fixpoint ends_with_char (p : ascii -> bool) (s : string) : bool :=
  match s with
  | EmptyString => false
  | String c s' =>
      match s' with
      | EmptyString => p c
      | String _ _ => ends_with_char p s'
      end
  end.

(** Two neighbouring characters both pass the test. *)
Fixpoint has_adjacent (p : ascii -> bool) (s : string) : bool :=
  match s with
  | EmptyString => false
  | String c s' => (p c && starts_with_char p s') || has_adjacent p s'
  end.

(** The characters of a URL slug: lower-case letters, digits, hyphen. *)
Definition slug_char (c : ascii) : bool :=
  Py.islower c || Py.isdigit c || RealTimeMain.is_hyphen c.

(** Slug characters only, no hyphen at either end, no two hyphens in a
    row. *)
Definition slug_shaped (s : string) : Prop :=
  all_chars slug_char s = true
  /\ starts_with_char RealTimeMain.is_hyphen s = false
  /\ ends_with_char RealTimeMain.is_hyphen s = false
  /\ has_adjacent RealTimeMain.is_hyphen s = false.

(** The order of the sort: a later item has no greater key. *)
Definition key_ge (x y : string * Q) : Prop := (y.2 <= x.2)%Q.

(** The scored candidates of [generate_related_keywords] after the sort. *)
Definition ranked (ratio : string -> string -> Q)
    (set_iter : gset string -> list string) (api : SEOAnalyzer.sources)
    (seed : string) (use_api : bool) : list (string * Q) :=
  SEOAnalyzer.sort_desc
    ((fun k => (k, SEOAnalyzer.calculate_similarity ratio seed k))
       <$> List.filter SEOAnalyzer.keeps_keyword
             (set_iter (SEOAnalyzer.related_candidates set_iter api seed use_api))).

Definition is_green (d : Q) : bool :=
  match RealTimeMain.colour_of d with RealTimeMain.Green => true | _ => false end.
Definition is_yellow (d : Q) : bool :=
  match RealTimeMain.colour_of d with RealTimeMain.Yellow => true | _ => false end.
Definition is_red (d : Q) : bool :=
  match RealTimeMain.colour_of d with RealTimeMain.Red => true | _ => false end.

(** How a text is shown within [n] characters: as it is when it has at
    most [n] characters, and otherwise as its first [n] characters followed
    by three dots. *)
Definition shown_as (n : nat) (text display : string) : Prop :=
  (String.length text <= n /\ display = text)
  \/ (n < String.length text
      /\ exists head rest,
           text = head +:+ rest /\ String.length head = n
           /\ display = head +:+ "...").

(** * Properties *)

(** Name every [Qmax]/[Qmin] of the goal, keep its defining cases, and
    leave linear arithmetic. *)
Ltac name_one_minmax a b op spec :=
  let H := fresh "Hcase" in
  pose proof (spec a b) as H;
  generalize dependent (op a b); intros.

Ltac name_minmax :=
  repeat match goal with
  | |- context [Qmax ?a ?b] => name_one_minmax a b Qmax Q.max_spec
  | |- context [Qmin ?a ?b] => name_one_minmax a b Qmin Q.min_spec
  | _ : context [Qmax ?a ?b] |- _ => name_one_minmax a b Qmax Q.max_spec
  | _ : context [Qmin ?a ?b] |- _ => name_one_minmax a b Qmin Q.min_spec
  end.

Ltac solve_minmax := name_minmax; lra.


(** ** The embedding on concrete inputs *)

Example split_runs :
  Py.split "  how to   cook  " = ["how"; "to"; "cook"]
  /\ Py.strip "  how to   cook  " = "how to   cook"
  /\ Py.title "hello wORLD it's 3rd" = "Hello World It'S 3Rd".
Proof. repeat split. Qed.

Example lexical_scores :
  (RealTimeKeywordAPI.estimate_keyword_difficulty "a" == 63)%Q
  /\ (RealTimeKeywordAPI.estimate_keyword_difficulty "Best free stop" == 42)%Q
  /\ (RealTimeKeywordAPI.estimate_keyword_difficulty "seo" == 59)%Q.
Proof. repeat split. Qed.

Example offline_scores :
  exists d, SEOAnalyzer.estimate_keyword_difficulty "Best SEO tools!" = Some d
            /\ (d == 77)%Q.
Proof. eexists. split; reflexivity. Qed.

Example scenario_pool :
  let pool := RealTimeSEOAnalyzer.generate_real_keywords
                elements scenario_api "content marketing" in
  list_to_set pool
  =@{gset string}
    {[ "content marketing"; "content marketing tips";
       "content marketing guide"; "strategy content marketing";
       "content marketing strategy"; "audience content marketing";
       "content marketing audience" ]}
  /\ length pool = 7
  /\ (RealTimeSEOAnalyzer.categorize_keywords pool).1 = ["content marketing"]
  /\ length (RealTimeSEOAnalyzer.categorize_keywords pool).2 = 6.
Proof. cbv zeta. repeat split; by vm_compute. Qed.

(** ** Characters and strings *)

Section TextFacts.

Import Py.

Lemma isspace_lower_char c : isspace (lower_char c) = isspace c.
Proof. destruct c as [[] [] [] [] [] [] [] []]; reflexivity. Qed.

Lemma lower_char_idem c : lower_char (lower_char c) = lower_char c.
Proof. destruct c as [[] [] [] [] [] [] [] []]; reflexivity. Qed.


Lemma lower_lower s : lower (lower s) = lower s.
Proof.
  induction s as [|c s IH]; simpl; [reflexivity|].
  by rewrite lower_char_idem, IH.
Qed.

Lemma split_String c s :
  split (String c s) =
  if isspace c then split s
  else match s with
       | EmptyString => [String c EmptyString]
       | String c' _ =>
           if isspace c' then String c EmptyString :: split s
           else match split s with
                | w :: ws => String c w :: ws
                | [] => [String c EmptyString]
                end
       end.
Proof. destruct s; reflexivity. Qed.




Lemma rstrip_String c s :
  rstrip (String c s) =
  match rstrip s with
  | EmptyString => if isspace c then EmptyString else String c EmptyString
  | r => String c r
  end.
Proof. reflexivity. Qed.







Lemma lstrip_lower s : lstrip (lower s) = lower (lstrip s).
Proof.
  induction s as [|c s IH]; [reflexivity|].
  simpl. rewrite isspace_lower_char. by destruct (isspace c).
Qed.

Lemma rstrip_lower s : rstrip (lower s) = lower (rstrip s).
Proof.
  induction s as [|c s IH]; [reflexivity|].
  change (lower (String c s)) with (String (lower_char c) (lower s)).
  rewrite !rstrip_String, IH, isspace_lower_char.
  destruct (rstrip s); [destruct (isspace c)|]; reflexivity.
Qed.

Lemma strip_lower s : strip (lower s) = lower (strip s).
Proof. unfold strip. by rewrite lstrip_lower, rstrip_lower. Qed.






End TextFacts.

(** ** Scores *)

Lemma nat_count_nonneg (n : nat) : (0 <= inject_Z (Z.of_nat n))%Q.
Proof. change 0%Q with (inject_Z 0). rewrite <- Zle_Qle. lia. Qed.

Lemma inject_succ (n : nat) :
  (inject_Z (Z.of_nat (S n)) == inject_Z (Z.of_nat n) + 1)%Q.
Proof. rewrite Nat2Z.inj_succ. unfold Z.succ. by rewrite inject_Z_plus. Qed.

(** The guarded division of the two heuristics never raises. *)
Lemma avg_length_defined (words : list string) :
  match words with
  | [] => Some 0%Q
  | _ => Py.truediv (inject_Z (Z.of_nat (Py.sum_len words)))
                    (inject_Z (Z.of_nat (length words)))
  end = Some (Policy.avg_token_length words).
Proof.
  destruct words as [|w ws]; [reflexivity|].
  unfold Py.truediv, Policy.avg_token_length, Policy.token_count.
  destruct (Qeq_bool _ 0) eqn:Hz; [|reflexivity].
  apply Qeq_bool_eq in Hz. exfalso.
  revert Hz. unfold Qeq. simpl. lia.
Qed.

Lemma avg_token_length_nonneg (words : list string) :
  (0 <= Policy.avg_token_length words)%Q.
Proof.
  destruct words as [|w ws]; [apply Qle_refl|].
  unfold Policy.avg_token_length, Policy.token_count.
  apply Qle_shift_div_l.
  - change 0%Q with (inject_Z 0). rewrite <- Zlt_Qlt. simpl. lia.
  - rewrite Qmult_0_l. apply nat_count_nonneg.
Qed.

Lemma boost_counts_terms (keyword : string) (terms : list string) :
  (foldr (fun term acc =>
            if Py.contains term (Py.lower keyword) then 5 + acc else acc)
         0 terms
   == 5 * inject_Z (Z.of_nat
          (length (List.filter
                     (fun term => Py.contains term (Py.lower keyword)) terms))))%Q.
Proof.
  induction terms as [|t ts IH]; simpl; [reflexivity|].
  destruct (Py.contains t (Py.lower keyword)); [|exact IH].
  cbn [length]. rewrite inject_succ, IH. ring.
Qed.

Lemma competition_boost_terms (keyword : string) :
  (RealTimeKeywordAPI.competition_boost keyword
   == 5 * inject_Z (Z.of_nat (Policy.terms_present keyword)))%Q.
Proof. apply boost_counts_terms. Qed.

Lemma competition_boost_nonneg (keyword : string) :
  (0 <= RealTimeKeywordAPI.competition_boost keyword)%Q.
Proof.
  rewrite competition_boost_terms.
  pose proof (nat_count_nonneg (Policy.terms_present keyword)). lra.
Qed.

(** The [try] block always completes. *)
Lemma lexical_try_completes (keyword : string) :
  RealTimeKeywordAPI.estimate_keyword_difficulty_try keyword =
  Some (Qmin 95
          (Qmax 10
             (80 - inject_Z (Z.of_nat (length (Py.split (Py.lower keyword)))) * 15
              - Policy.avg_token_length (Py.split (Py.lower keyword)) * 2)
           + RealTimeKeywordAPI.competition_boost keyword))%Q.
Proof.
  unfold RealTimeKeywordAPI.estimate_keyword_difficulty_try.
  by rewrite avg_length_defined.
Qed.

Lemma lexical_value (keyword : string) :
  (RealTimeKeywordAPI.estimate_keyword_difficulty keyword
   == Policy.lexical keyword)%Q.
Proof.
  unfold RealTimeKeywordAPI.estimate_keyword_difficulty.
  rewrite lexical_try_completes.
  unfold Policy.lexical, Policy.token_count.
  pose proof (competition_boost_terms keyword) as Hb.
  revert Hb.
  generalize (RealTimeKeywordAPI.competition_boost keyword).
  generalize (inject_Z (Z.of_nat (Policy.terms_present keyword))).
  generalize (Policy.avg_token_length (Py.split (Py.lower keyword))).
  generalize (inject_Z (Z.of_nat (length (Py.split (Py.lower keyword))))).
  intros wc avg n boost Hb. solve_minmax.
Qed.

Lemma lexical_bounds (keyword : string) :
  (10 <= RealTimeKeywordAPI.estimate_keyword_difficulty keyword <= 95)%Q.
Proof.
  unfold RealTimeKeywordAPI.estimate_keyword_difficulty.
  rewrite lexical_try_completes.
  pose proof (competition_boost_nonneg keyword) as Hb.
  revert Hb.
  generalize (RealTimeKeywordAPI.competition_boost keyword).
  generalize (Policy.avg_token_length (Py.split (Py.lower keyword))).
  generalize (inject_Z (Z.of_nat (length (Py.split (Py.lower keyword))))).
  intros wc avg boost Hb. solve_minmax.
Qed.

Lemma split_nil_String a s :
  Py.split (String a s) = [] -> Py.isspace a = true /\ Py.split s = [].
Proof.
  rewrite split_String.
  destruct (Py.isspace a); [by intros ->|].
  destruct s as [|c' s']; [discriminate|].
  destruct (Py.isspace c'); [discriminate|].
  by destruct (Py.split (String c' s')).
Qed.

(** A blank string contains no word. *)
Lemma contains_blank c t s :
  Py.isspace c = false -> Py.split s = [] -> Py.contains (String c t) s = false.
Proof.
  intros Hc. induction s as [|a s IH]; [reflexivity|].
  intros [Ha Hs]%split_nil_String.
  simpl. destruct (ascii_dec c a) as [->|_]; [congruence|].
  by apply IH.
Qed.

Lemma competition_boost_blank (keyword : string) :
  Py.split (Py.lower keyword) = [] ->
  RealTimeKeywordAPI.competition_boost keyword = 0%Q.
Proof.
  intros Hs.
  unfold RealTimeKeywordAPI.competition_boost,
         RealTimeKeywordAPI.high_competition_terms.
  cbn [foldr]. by rewrite !contains_blank.
Qed.

Lemma total_frequency_of_from (words : list string) (acc : Z) :
  foldl (fun total_frequency word =>
           match SEOAnalyzer.word_frequencies !! word with
           | Some f => (total_frequency + f)%Z
           | None => total_frequency
           end)
        acc words
  = (acc + Policy.total_frequency words)%Z.
Proof.
  unfold Policy.total_frequency, Policy.table_frequency.
  revert acc. induction words as [|w ws IH]; intros acc; cbn [foldl foldr];
    [lia|].
  rewrite IH.
  destruct (SEOAnalyzer.word_frequencies !! w); unfold default; cbn [from_option id]; lia.
Qed.

Lemma total_frequency_of_sum (words : list string) :
  SEOAnalyzer.total_frequency_of words = Policy.total_frequency words.
Proof. unfold SEOAnalyzer.total_frequency_of. by rewrite total_frequency_of_from. Qed.

(** The offline heuristic never raises. *)
Lemma offline_completes (keyword : string) :
  SEOAnalyzer.estimate_keyword_difficulty keyword =
  let words := Py.split (SEOAnalyzer.clean_text keyword) in
  Some (Qmin (Qmax (Qmin (inject_Z (Policy.total_frequency words) / 10000) 50
                    + Qmax 0 (30 - inject_Z (Z.of_nat (length words)) * 5)
                    + Qmax 0 (20 - Policy.avg_token_length words * 2)) 0) 100)%Q.
Proof.
  unfold SEOAnalyzer.estimate_keyword_difficulty.
  by rewrite avg_length_defined, total_frequency_of_sum.
Qed.

(** A non-empty word is counted at least once exactly when it is found. *)
Lemma count_zero_iff c t s :
  Py.count (String c t) s = 0 <-> Py.contains (String c t) s = false.
Proof.
  unfold Py.count. induction s as [|a s IH]; [done|].
  cbn [Py.count_from Py.contains].
  destruct (String.prefix (String c t) (String a s)); [done|].
  by rewrite orb_false_l.
Qed.

Lemma count_at_most_once c t s :
  Py.count (String c t) s <= 1 ->
  Py.count (String c t) s = if Py.contains (String c t) s then 1 else 0.
Proof.
  intros Hle. pose proof (count_zero_iff c t s) as Hz.
  destruct (Py.contains (String c t) s).
  - destruct (Py.count (String c t) s) as [|[|n]]; [|done|lia].
    discriminate (proj1 Hz eq_refl).
  - by apply Hz.
Qed.

Lemma occurrences_at_most_once (keyword : string) :
  Forall (fun term => Py.count term (Py.lower keyword) <= 1)
         RealTimeKeywordAPI.high_competition_terms ->
  Policy.term_occurrences keyword = Policy.terms_present keyword.
Proof.
  unfold Policy.term_occurrences, Policy.terms_present,
         RealTimeKeywordAPI.high_competition_terms.
  intros Hall. repeat (apply Forall_cons in Hall as [?%count_at_most_once Hall]).
  cbn [foldr List.filter].
  repeat match goal with H : Py.count _ _ = _ |- _ => rewrite H; clear H end.
  repeat destruct (Py.contains _ _); reflexivity.
Qed.

(** ** The claims on the difficulty heuristics *)

(** C2 (as stated, refuted).  With the bonus counted once per occurrence of
    a vocabulary term, the keyword "best best" would score 52; the code
    returns 47. *)
Lemma lexical_per_occurrence_differs :
  ~ (RealTimeKeywordAPI.estimate_keyword_difficulty "best best"
     == Policy.lexical_per_occurrence "best best")%Q.
Proof. intros H. vm_compute in H. discriminate H. Qed.

(** C2 (amended).  For every keyword the lexical heuristic returns
    max(10, 80 - 15*tokenCount - 2*avgTokenLength), plus 5 for each term of
    the vocabulary that is a substring of the lower-cased keyword (once per
    term, however often it occurs), the total capped at 95.  This is the
    value counted per occurrence whenever no term occurs twice. *)
Theorem lexical_heuristic_formula (keyword : string) :
  let tokens := Py.split (Py.lower keyword) in
  (RealTimeKeywordAPI.estimate_keyword_difficulty keyword
   == Qmin 95
        (Qmax 10 (80 - 15 * Policy.token_count tokens
                  - 2 * Policy.avg_token_length tokens)
         + 5 * inject_Z (Z.of_nat (Policy.terms_present keyword))))%Q
  /\ (Forall (fun term => Py.count term (Py.lower keyword) <= 1)
             RealTimeKeywordAPI.high_competition_terms ->
      (RealTimeKeywordAPI.estimate_keyword_difficulty keyword
       == Policy.lexical_per_occurrence keyword)%Q).
Proof.
  split; [exact (lexical_value keyword)|].
  intros Hall. rewrite lexical_value.
  unfold Policy.lexical_per_occurrence, Policy.lexical.
  by rewrite (occurrences_at_most_once _ Hall).
Qed.

Lemma lexical_heuristic_formula_witness :
  Forall (fun term => Py.count term (Py.lower "Best free SEO tools") <= 1)
         RealTimeKeywordAPI.high_competition_terms
  /\ (RealTimeKeywordAPI.estimate_keyword_difficulty "Best free SEO tools"
      == Policy.lexical_per_occurrence "Best free SEO tools")%Q.
Proof.
  assert (Hall : Forall (fun term => Py.count term (Py.lower "Best free SEO tools") <= 1)
                        RealTimeKeywordAPI.high_competition_terms)
    by (repeat constructor).
  split; [exact Hall|].
  exact (proj2 (lexical_heuristic_formula "Best free SEO tools") Hall).
Defined.

(** C3 (as stated, refuted).  The empty keyword has no token, and the
    lexical heuristic scores it 80, not 50. *)
Lemma lexical_empty_not_default :
  Py.split (Py.lower "") = []
  /\ (RealTimeKeywordAPI.estimate_keyword_difficulty "" == 80)%Q
  /\ ~ (RealTimeKeywordAPI.estimate_keyword_difficulty "" == 50)%Q.
Proof.
  split; [reflexivity|]. split; [reflexivity|].
  intros H. vm_compute in H. discriminate H.
Qed.

(** C3 (amended).  On a keyword without tokens neither heuristic fails:
    the lexical heuristic completes its [try] block and returns 80, and the
    frequency-informed heuristic returns 50. *)
Theorem empty_tokens_scores (keyword : string) :
  (Py.split (Py.lower keyword) = [] ->
   is_Some (RealTimeKeywordAPI.estimate_keyword_difficulty_try keyword)
   /\ (RealTimeKeywordAPI.estimate_keyword_difficulty keyword == 80)%Q)
  /\ (Py.split (SEOAnalyzer.clean_text keyword) = [] ->
      exists d, SEOAnalyzer.estimate_keyword_difficulty keyword = Some d
                /\ (d == 50)%Q).
Proof.
  split.
  - intros Hs. split; [rewrite lexical_try_completes; eauto|].
    unfold RealTimeKeywordAPI.estimate_keyword_difficulty.
    rewrite lexical_try_completes, competition_boost_blank, Hs by done.
    reflexivity.
  - intros Hs. rewrite offline_completes, Hs.
    eexists. split; reflexivity.
Qed.

Lemma empty_tokens_scores_witness :
  Py.split (Py.lower "   ") = []
  /\ (RealTimeKeywordAPI.estimate_keyword_difficulty "   " == 80)%Q
  /\ Py.split (SEOAnalyzer.clean_text "?!") = []
  /\ exists d, SEOAnalyzer.estimate_keyword_difficulty "?!" = Some d
               /\ (d == 50)%Q.
Proof.
  split; [reflexivity|]. split.
  - apply (proj1 (empty_tokens_scores "   ")). reflexivity.
  - split; [reflexivity|].
    apply (proj2 (empty_tokens_scores "?!")). reflexivity.
Defined.

(** C6.  Every lexical score lies in [0,100], and the one-letter keyword
    "a" scores at least as much as the five-word phrase. *)
Theorem lexical_score_range (keyword : string) :
  (0 <= RealTimeKeywordAPI.estimate_keyword_difficulty keyword <= 100)%Q
  /\ (RealTimeKeywordAPI.estimate_keyword_difficulty
        "advanced industrial keyword research methodology"
      <= RealTimeKeywordAPI.estimate_keyword_difficulty "a")%Q.
Proof.
  split.
  - pose proof (lexical_bounds keyword). lra.
  - vm_compute. discriminate.
Qed.

(** C7.  The offline heuristic always returns, and its value is
    min(totalFrequency/10000, 50) + max(0, 30 - 5*tokenCount)
    + max(0, 20 - 2*avgTokenLength) clamped to [0,100], over the tokens of
    the cleaned keyword and the frequencies of the lookup table. *)
Theorem frequency_heuristic_formula (keyword : string) :
  exists d, SEOAnalyzer.estimate_keyword_difficulty keyword = Some d
            /\ (d == Policy.frequency_informed keyword)%Q.
Proof.
  rewrite offline_completes. eexists. split; [reflexivity|].
  unfold Policy.frequency_informed, Policy.clamp, Policy.token_count.
  cbv zeta.
  generalize (Policy.avg_token_length (Py.split (SEOAnalyzer.clean_text keyword))).
  generalize (inject_Z (Z.of_nat (length (Py.split (SEOAnalyzer.clean_text keyword))))).
  generalize (inject_Z (Policy.total_frequency
                          (Py.split (SEOAnalyzer.clean_text keyword))) / 10000)%Q.
  intros f wc avg. solve_minmax.
Qed.

(** C10.  Every lexical score, the one of the empty keyword included, lies
    in [10,95]; the values 0 and 100 are never returned. *)
Theorem lexical_score_tight_range (keyword : string) :
  (10 <= RealTimeKeywordAPI.estimate_keyword_difficulty keyword <= 95)%Q
  /\ ~ (RealTimeKeywordAPI.estimate_keyword_difficulty keyword == 0)%Q
  /\ ~ (RealTimeKeywordAPI.estimate_keyword_difficulty keyword == 100)%Q.
Proof.
  pose proof (lexical_bounds keyword) as [Hlo Hhi].
  split; [by split|]. split; intros H; rewrite H in *; lra.
Qed.

(** ** Aggregation *)

Section Aggregation.

Import RealTimeSEOAnalyzer.


Lemma filter_and_clean_from (keywords acc : list string) :
  foldl (fun filtered_keywords keyword =>
           if passes_filter keyword
           then filtered_keywords ++ [Py.lower (Py.strip keyword)]
           else filtered_keywords)
        acc keywords
  = acc ++ ((fun k => Py.lower (Py.strip k)) <$> List.filter passes_filter keywords).
Proof.
  revert acc. induction keywords as [|k ks IH]; intros acc; cbn [foldl List.filter].
  - by rewrite app_nil_r.
  - rewrite IH. destruct (passes_filter k); [|reflexivity].
    by rewrite <- app_assoc.
Qed.

Lemma filter_and_clean_map (keywords : list string) :
  filter_and_clean keywords
  = (fun k => Py.lower (Py.strip k)) <$> List.filter passes_filter keywords.
Proof. unfold filter_and_clean. by rewrite filter_and_clean_from. Qed.

Lemma elem_of_filter_and_clean (m : string) (keywords : list string) :
  m ∈ filter_and_clean keywords <->
  exists c, c ∈ keywords /\ passes_filter c = true /\ m = Py.lower (Py.strip c).
Proof.
  rewrite filter_and_clean_map, list_elem_of_fmap.
  split.
  - intros (c & -> & Hc). apply list_elem_of_In, filter_In in Hc as [Hc Hp].
    exists c. by rewrite list_elem_of_In.
  - intros (c & Hc & Hp & ->). exists c. split; [reflexivity|].
    apply list_elem_of_In, filter_In. by rewrite <- list_elem_of_In.
Qed.

Lemma elem_of_cleaned_set set_iter api seed m :
  set_order set_iter ->
  m ∈ cleaned_set api seed set_iter <->
  exists c, c ∈ candidate_keywords api seed
            /\ passes_filter c = true /\ m = Py.lower (Py.strip c).
Proof.
  intros Hord. unfold cleaned_set.
  rewrite elem_of_list_to_set, elem_of_filter_and_clean.
  by setoid_rewrite (Hord (candidate_keywords api seed));
     setoid_rewrite elem_of_elements.
Qed.

Lemma pool_unfold set_iter api seed :
  generate_real_keywords set_iter api seed
  = take 50 (set_iter (cleaned_set api seed set_iter)).
Proof. reflexivity. Qed.




Lemma pool_not_truncated set_iter api seed :
  length (generate_real_keywords set_iter api seed) < 50 ->
  generate_real_keywords set_iter api seed
  = set_iter (cleaned_set api seed set_iter).
Proof.
  rewrite pool_unfold, length_take. intros Hlen.
  apply take_ge. lia.
Qed.

Lemma fold_datamuse_grows (seed : string) (words : list string) (acc : gset string) :
  acc ⊆ foldl (fun acc word =>
                 acc ∪ {[ word +:+ " " +:+ seed ]} ∪ {[ seed +:+ " " +:+ word ]})
              acc words.
Proof.
  revert acc. induction words as [|w ws IH]; intros acc; cbn [foldl]; [done|].
  etrans; [|apply IH]. set_solver.
Qed.

Lemma fold_wiki_grows (seed : string) (terms : list string) (acc : gset string) :
  acc ⊆ foldl (fun acc term =>
                 if (length (Py.split term) <=? 3)%nat
                 then acc ∪ {[ Py.lower term +:+ " " +:+ seed ]}
                          ∪ {[ seed +:+ " " +:+ Py.lower term ]}
                 else acc)
              acc terms.
Proof.
  revert acc. induction terms as [|t ts IH]; intros acc; cbn [foldl]; [done|].
  etrans; [|apply IH]. destruct (_ <=? _)%nat; set_solver.
Qed.

Lemma seed_is_candidate api seed : Py.lower seed ∈ candidate_keywords api seed.
Proof.
  unfold candidate_keywords. cbv zeta.
  apply fold_wiki_grows, fold_datamuse_grows. set_solver.
Qed.

Lemma candidates_of_empty_sources api seed :
  sources_empty api seed -> candidate_keywords api seed = {[ Py.lower seed ]}.
Proof.
  intros (H1 & H2 & H3 & H4). unfold candidate_keywords.
  rewrite H1, H2, H3, H4. cbn [foldl list_to_set foldr].
  by rewrite (left_id_L ∅ (∪)), !(right_id_L ∅ (∪)).
Qed.

Lemma set_iter_singleton set_iter (x : string) :
  set_order set_iter -> set_iter {[ x ]} = [x].
Proof.
  intros Hord. apply Permutation_singleton_r.
  by rewrite (Hord _), elements_singleton.
Qed.

Lemma normalized_seed (seed : string) :
  Py.lower (Py.strip (Py.lower seed)) = Py.strip (Py.lower seed).
Proof. by rewrite <- strip_lower, lower_lower. Qed.

Lemma pool_of_empty_sources set_iter api seed :
  set_order set_iter -> sources_empty api seed ->
  generate_real_keywords set_iter api seed
  = if passes_filter (Py.lower seed) then [Py.strip (Py.lower seed)] else [].
Proof.
  intros Hord Hemp. rewrite pool_unfold. unfold cleaned_set.
  rewrite (candidates_of_empty_sources _ _ Hemp), (set_iter_singleton _ _ Hord).
  rewrite filter_and_clean_map. cbn [List.filter].
  destruct (passes_filter (Py.lower seed)); cbn [fmap list_fmap list_to_set].
  - rewrite normalized_seed, (right_id_L ∅ (∪)), (set_iter_singleton _ _ Hord).
    reflexivity.
  - assert (Hnil : set_iter ∅ = []).
    { apply Permutation_nil_r. by rewrite (Hord _), elements_empty. }
    by rewrite Hnil.
Qed.

End Aggregation.

(** ** The claims on the aggregator *)

(** C1 (as stated, refuted).  The two-letter seed "ai" is not empty, yet
    with every source failing the pool is empty: the length filter removes
    the seed like any other candidate. *)
Lemma short_seed_not_in_pool :
  ~ (forall set_iter api seed,
       set_order set_iter -> seed <> "" ->
       Py.lower seed ∈ RealTimeSEOAnalyzer.generate_real_keywords set_iter api seed).
Proof.
  intros H.
  specialize (H elements failing_api "ai" (fun s => reflexivity _)).
  assert (Hpool : RealTimeSEOAnalyzer.generate_real_keywords
                    elements failing_api "ai" = [])
    by (vm_compute; reflexivity).
  rewrite Hpool in H.
  apply (not_elem_of_nil (Py.lower "ai")), H. discriminate.
Qed.

(** C1 (amended).  For every seed whose lower-cased form passes the filter
    (3 to 100 characters, at most 6 tokens), the pool contains the trimmed,
    lower-cased seed whenever it has fewer than 50 members, and when every
    source contributes an empty sequence the pool is exactly that keyword. *)
Theorem seed_in_pool set_iter api seed :
  set_order set_iter ->
  RealTimeSEOAnalyzer.passes_filter (Py.lower seed) = true ->
  (length (RealTimeSEOAnalyzer.generate_real_keywords set_iter api seed) < 50 ->
   Py.strip (Py.lower seed)
     ∈ RealTimeSEOAnalyzer.generate_real_keywords set_iter api seed)
  /\ (sources_empty api seed ->
      RealTimeSEOAnalyzer.generate_real_keywords set_iter api seed
      = [Py.strip (Py.lower seed)]).
Proof.
  intros Hord Hpass. split.
  - intros Hlen. rewrite (pool_not_truncated _ _ _ Hlen).
    rewrite (Hord _), elem_of_elements.
    apply (elem_of_cleaned_set set_iter); [done|].
    exists (Py.lower seed). split; [apply seed_is_candidate|].
    split; [done|]. by rewrite normalized_seed.
  - intros Hemp. by rewrite (pool_of_empty_sources _ _ _ Hord Hemp), Hpass.
Qed.

Lemma seed_in_pool_witness :
  set_order elements
  /\ RealTimeSEOAnalyzer.passes_filter (Py.lower " Content Marketing ") = true
  /\ sources_empty failing_api " Content Marketing "
  /\ "content marketing"
       ∈ RealTimeSEOAnalyzer.generate_real_keywords
           elements failing_api " Content Marketing "
  /\ RealTimeSEOAnalyzer.generate_real_keywords
       elements failing_api " Content Marketing "
     = ["content marketing"].
Proof.
  assert (Hord : set_order elements) by (intros s; reflexivity).
  pose proof (seed_in_pool elements failing_api " Content Marketing "
                Hord eq_refl) as [Hin Heq].
  split; [exact Hord|]. split; [reflexivity|].
  split; [repeat split|]. split.
  - apply Hin. vm_compute. lia.
  - apply Heq. repeat split.
Defined.




(** ** Categorisation *)

Lemma categorize_from (keywords short_tail long_tail : list string) :
  foldl (fun '(short_tail, long_tail) keyword =>
           let word_count := length (Py.split keyword) in
           if (word_count <=? 2)%nat
           then (short_tail ++ [keyword], long_tail)
           else (short_tail, long_tail ++ [keyword]))
        (short_tail, long_tail) keywords
  = (short_tail ++ List.filter is_short keywords,
     long_tail ++ List.filter (fun k => negb (is_short k)) keywords).
Proof.
  revert short_tail long_tail.
  induction keywords as [|k ks IH]; intros short_tail long_tail;
    cbn [foldl List.filter].
  - by rewrite !app_nil_r.
  - cbv zeta. change (length (Py.split k) <=? 2)%nat with (is_short k).
    destruct (is_short k); rewrite IH; cbn [negb];
      by rewrite <- app_assoc.
Qed.

Lemma categorize_filters (keywords : list string) :
  RealTimeSEOAnalyzer.categorize_keywords keywords
  = (List.filter is_short keywords,
     List.filter (fun k => negb (is_short k)) keywords).
Proof. unfold RealTimeSEOAnalyzer.categorize_keywords. by rewrite categorize_from. Qed.

Lemma filter_split_perm {A} (p : A -> bool) (l : list A) :
  List.filter p l ++ List.filter (fun x => negb (p x)) l ≡ₚ l.
Proof.
  induction l as [|x l IH]; cbn [List.filter]; [done|].
  destruct (p x); cbn [negb app].
  - by rewrite IH.
  - by rewrite <- Permutation_middle, IH.
Qed.

(** C4.  [categorize_keywords] sends every position of the pool to exactly
    one bucket, short-tail when the keyword has at most 2 tokens and
    long-tail otherwise, keeping the order: no keyword is in both buckets,
    and the two buckets together are a rearrangement of the pool. *)
Theorem categorize_partitions (keywords : list string) :
  let '(short_tail, long_tail) :=
    RealTimeSEOAnalyzer.categorize_keywords keywords in
  (forall k, k ∈ short_tail <-> k ∈ keywords /\ length (Py.split k) <= 2)
  /\ (forall k, k ∈ long_tail <-> k ∈ keywords /\ 2 < length (Py.split k))
  /\ (forall k, k ∈ keywords ->
                ((k ∈ short_tail) /\ (k ∉ long_tail))
                \/ ((k ∉ short_tail) /\ (k ∈ long_tail)))
  /\ short_tail = List.filter (fun k => length (Py.split k) <=? 2)%nat keywords
  /\ long_tail
     = List.filter (fun k => negb (length (Py.split k) <=? 2)%nat) keywords
  /\ short_tail ++ long_tail ≡ₚ keywords
  /\ length short_tail + length long_tail = length keywords.
Proof.
  rewrite categorize_filters.
  assert (Hs : forall k, k ∈ List.filter is_short keywords
                         <-> k ∈ keywords /\ length (Py.split k) <= 2).
  { intros k. rewrite !list_elem_of_In, filter_In.
    unfold is_short. by rewrite Nat.leb_le. }
  assert (Hl : forall k, k ∈ List.filter (fun k => negb (is_short k)) keywords
                         <-> k ∈ keywords /\ 2 < length (Py.split k)).
  { intros k. rewrite !list_elem_of_In, filter_In.
    unfold is_short. rewrite negb_true_iff, Nat.leb_gt. done. }
  split; [exact Hs|]. split; [exact Hl|].
  split.
  { intros k Hk.
    destruct (decide (length (Py.split k) <= 2)) as [Hle|Hgt]; [left|right].
    - split; [by apply Hs|]. rewrite Hl. intros [_ ?]. lia.
    - split; [rewrite Hs; intros [_ ?]; lia|]. apply Hl. split; [done|lia]. }
  split; [reflexivity|]. split; [reflexivity|].
  split; [apply filter_split_perm|].
  by rewrite <- length_app, filter_split_perm.
Qed.

(** ** Content plan *)


(** C9.  The content structure is a function of the seed phrase alone: any
    two lists of related keywords give the same titles, headings, meta
    description, target length and density. *)
Theorem structure_ignores_related_keywords
    (keyword : string) (related_keywords1 related_keywords2 : list string) :
  RealTimeSEOAnalyzer.suggest_content_structure keyword related_keywords1
  = RealTimeSEOAnalyzer.suggest_content_structure keyword related_keywords2.
Proof. reflexivity. Qed.

(** * Further properties of the code *)

(** ** Stripping and run replacement *)

Section StripFacts.

Import Py.

Variable p : ascii -> bool.

Lemma rstrip_with_String c s :
  rstrip_with p (String c s) =
  match rstrip_with p s with
  | EmptyString => if p c then EmptyString else String c EmptyString
  | r => String c r
  end.
Proof. reflexivity. Qed.

Lemma rstrip_with_head c s c1 r1 :
  rstrip_with p (String c s) = String c1 r1 -> c1 = c.
Proof.
  rewrite rstrip_with_String.
  destruct (rstrip_with p s); [destruct (p c)|]; congruence.
Qed.

Lemma lstrip_with_starts s : starts_with_char p (lstrip_with p s) = false.
Proof.
  induction s as [|c s IH]; [reflexivity|].
  simpl. by destruct (p c) eqn:Hc.
Qed.

Lemma rstrip_with_starts s :
  starts_with_char p s = false -> starts_with_char p (rstrip_with p s) = false.
Proof.
  destruct s as [|c s]; [done|]. intros Hc. simpl in Hc.
  rewrite rstrip_with_String.
  destruct (rstrip_with p s); simpl; by rewrite ?Hc.
Qed.

Lemma rstrip_with_ends s : ends_with_char p (rstrip_with p s) = false.
Proof.
  induction s as [|c s IH]; [reflexivity|].
  rewrite rstrip_with_String.
  destruct (rstrip_with p s) as [|c1 r1].
  - destruct (p c) eqn:Hc; simpl; by rewrite ?Hc.
  - exact IH.
Qed.

Lemma lstrip_with_id s : starts_with_char p s = false -> lstrip_with p s = s.
Proof. destruct s as [|c s]; [done|]. simpl. by intros ->. Qed.

Lemma rstrip_with_id s : ends_with_char p s = false -> rstrip_with p s = s.
Proof.
  induction s as [|c s IH]; [done|].
  rewrite rstrip_with_String. cbn [ends_with_char].
  destruct s as [|c' s'].
  - by intros ->.
  - intros H. by rewrite (IH H).
Qed.

Lemma all_chars_lstrip_with q s :
  all_chars q s = true -> all_chars q (lstrip_with p s) = true.
Proof.
  induction s as [|c s IH]; [done|].
  intros H. simpl. destruct (p c); [|exact H].
  simpl in H. apply andb_true_iff in H as [_ H]. by apply IH.
Qed.

Lemma all_chars_rstrip_with q s :
  all_chars q s = true -> all_chars q (rstrip_with p s) = true.
Proof.
  induction s as [|c s IH]; [done|].
  cbn [all_chars]. intros [Hc Hs]%andb_true_iff.
  rewrite rstrip_with_String. specialize (IH Hs).
  destruct (rstrip_with p s); [destruct (p c)|]; cbn [all_chars] in *;
    by rewrite ?Hc, ?IH.
Qed.

Lemma has_adjacent_lstrip_with q s :
  has_adjacent q s = false -> has_adjacent q (lstrip_with p s) = false.
Proof.
  induction s as [|c s IH]; [done|].
  intros H. simpl. destruct (p c); [|exact H].
  cbn [has_adjacent] in H. apply orb_false_iff in H as [_ H]. by apply IH.
Qed.

Lemma has_adjacent_rstrip_with q s :
  has_adjacent q s = false -> has_adjacent q (rstrip_with p s) = false.
Proof.
  induction s as [|c s IH]; [done|].
  cbn [has_adjacent]. intros [Hc Hs]%orb_false_iff.
  rewrite rstrip_with_String. specialize (IH Hs).
  destruct (rstrip_with p s) as [|c1 r1] eqn:Hr.
  - destruct (p c); [done|]. simpl. by rewrite andb_false_r.
  - cbn [has_adjacent] in *. rewrite IH, orb_false_r.
    destruct s as [|c' s']; [discriminate|].
    apply rstrip_with_head in Hr as ->. exact Hc.
Qed.

End StripFacts.

Section RunFacts.

Import Py.

Variable class : ascii -> bool.

Lemma append_hyphen (r : string) : "-" +:+ r = String "-" r.
Proof. reflexivity. Qed.

Lemma re_sub_runs_all_chars q b s :
  q "-"%char = true ->
  all_chars (fun c => class c || q c) s = true ->
  all_chars q (re_sub_runs class "-" b s) = true.
Proof.
  intros Hq. revert b. induction s as [|c s IH]; intros b; [done|].
  cbn [all_chars re_sub_runs]. intros [Hc Hs]%andb_true_iff.
  destruct (class c).
  - destruct b; [by apply IH|].
    rewrite append_hyphen. cbn [all_chars]. by rewrite Hq, IH.
  - cbn [all_chars]. simpl in Hc. by rewrite Hc, IH.
Qed.

(** When the hyphen only comes from the replacement, the result has no two
    hyphens in a row. *)
Lemma re_sub_runs_no_adjacent b s :
  all_chars (fun c => class c || negb (RealTimeMain.is_hyphen c)) s = true ->
  has_adjacent RealTimeMain.is_hyphen (re_sub_runs class "-" b s) = false
  /\ (b = true ->
      starts_with_char RealTimeMain.is_hyphen (re_sub_runs class "-" b s)
      = false).
Proof.
  revert b. induction s as [|c s IH]; intros b; [done|].
  cbn [all_chars re_sub_runs]. intros [Hc Hs]%andb_true_iff.
  destruct (class c).
  - destruct b; [by apply IH|].
    destruct (IH true Hs) as [Hadj Hst].
    rewrite append_hyphen. cbn [has_adjacent]. split; [|done].
    by rewrite Hadj, (Hst eq_refl), andb_false_r.
  - simpl in Hc. apply negb_true_iff in Hc.
    destruct (IH false Hs) as [Hadj _].
    cbn [has_adjacent starts_with_char]. by rewrite Hc, Hadj.
Qed.

End RunFacts.

(** ** URL slugs *)

Lemma append_length (a b : string) :
  String.length (a +:+ b) = String.length a + String.length b.
Proof. induction a as [|c a IH]; simpl; [reflexivity|]. by rewrite IH. Qed.

Lemma slice_to_length (n : nat) (s : string) :
  String.length (Py.slice_to n s) = n `min` String.length s.
Proof.
  revert s. induction n as [|n IH]; intros [|c s]; simpl; try reflexivity.
  by rewrite IH.
Qed.

Lemma all_chars_impl (p q : ascii -> bool) (s : string) :
  (forall c, p c = true -> q c = true) ->
  all_chars p s = true -> all_chars q s = true.
Proof.
  intros Hpq. induction s as [|c s IH]; [done|].
  cbn [all_chars]. intros [Hc Hs]%andb_true_iff.
  by rewrite (Hpq _ Hc), IH.
Qed.

Lemma keeps_lower_char c :
  SEOAnalyzer.keeps (Py.lower_char c) = true ->
  (Py.islower (Py.lower_char c) || Py.isdigit (Py.lower_char c)
   || Py.isspace (Py.lower_char c)) = true.
Proof. destruct c as [[] [] [] [] [] [] [] []]; by vm_compute. Qed.

Lemma clean_text_chars (text : string) :
  all_chars (fun c => Py.islower c || Py.isdigit c || Py.isspace c)
            (SEOAnalyzer.clean_text text) = true.
Proof.
  unfold SEOAnalyzer.clean_text.
  induction text as [|c s IH]; [done|].
  cbn [Py.lower SEOAnalyzer.remove_special].
  destruct (SEOAnalyzer.keeps (Py.lower_char c)) eqn:Hk; [|exact IH].
  cbn [all_chars]. by rewrite (keeps_lower_char _ Hk), IH.
Qed.

Lemma clean_char_fixed c :
  (Py.islower c || Py.isdigit c || Py.isspace c) = true ->
  Py.lower_char c = c /\ SEOAnalyzer.keeps c = true.
Proof. destruct c as [[] [] [] [] [] [] [] []]; by vm_compute. Qed.

Lemma clean_text_fixed (s : string) :
  all_chars (fun c => Py.islower c || Py.isdigit c || Py.isspace c) s = true ->
  SEOAnalyzer.clean_text s = s.
Proof.
  unfold SEOAnalyzer.clean_text.
  induction s as [|c s IH]; [done|].
  cbn [all_chars]. intros [Hc Hs]%andb_true_iff.
  destruct (clean_char_fixed _ Hc) as [Hl Hk].
  cbn [Py.lower SEOAnalyzer.remove_special].
  by rewrite Hl, Hk, (IH Hs).
Qed.

Lemma clean_char_slug c :
  (Py.islower c || Py.isdigit c || Py.isspace c) = true ->
  (Py.isspace c || slug_char c) = true
  /\ (Py.isspace c || negb (RealTimeMain.is_hyphen c)) = true
  /\ (Py.isspace c = false -> RealTimeMain.is_hyphen c = false).
Proof. destruct c as [[] [] [] [] [] [] [] []]; by vm_compute. Qed.

Lemma slug_char_facts c :
  slug_char c = true ->
  Py.lower_char c = c
  /\ negb (Py.islower c || Py.isdigit c) = RealTimeMain.is_hyphen c.
Proof. destruct c as [[] [] [] [] [] [] [] []]; by vm_compute. Qed.

Lemma lowered_char_slug c :
  (negb (Py.islower (Py.lower_char c) || Py.isdigit (Py.lower_char c))
   || slug_char (Py.lower_char c)) = true
  /\ (negb (Py.islower (Py.lower_char c) || Py.isdigit (Py.lower_char c))
      || negb (RealTimeMain.is_hyphen (Py.lower_char c))) = true.
Proof. destruct c as [[] [] [] [] [] [] [] []]; by vm_compute. Qed.

Lemma all_chars_lower (p : ascii -> bool) (s : string) :
  (forall c, p (Py.lower_char c) = true) -> all_chars p (Py.lower s) = true.
Proof.
  intros Hp. induction s as [|c s IH]; [done|].
  cbn [Py.lower all_chars]. by rewrite Hp, IH.
Qed.

Lemma url_slug_is_shaped (seed_keyword : string) :
  slug_shaped (RealTimeMain.url_slug seed_keyword).
Proof.
  unfold RealTimeMain.url_slug, Py.strip_with.
  set (class := fun c => negb (Py.islower c || Py.isdigit c)).
  set (r := Py.re_sub_runs class "-" false (Py.lower seed_keyword)).
  assert (Hall : all_chars slug_char r = true).
  { apply re_sub_runs_all_chars; [reflexivity|].
    apply all_chars_lower. intros c. apply lowered_char_slug. }
  assert (Hadj : has_adjacent RealTimeMain.is_hyphen r = false).
  { apply re_sub_runs_no_adjacent.
    apply all_chars_lower. intros c. apply lowered_char_slug. }
  repeat split.
  - by apply all_chars_rstrip_with, all_chars_lstrip_with.
  - apply rstrip_with_starts, lstrip_with_starts.
  - apply rstrip_with_ends.
  - by apply has_adjacent_rstrip_with, has_adjacent_lstrip_with.
Qed.

Lemma lower_of_slug_chars (s : string) :
  all_chars slug_char s = true -> Py.lower s = s.
Proof.
  induction s as [|c s IH]; [done|].
  cbn [all_chars]. intros [Hc Hs]%andb_true_iff.
  cbn [Py.lower]. by rewrite (proj1 (slug_char_facts _ Hc)), (IH Hs).
Qed.

Lemma re_sub_runs_of_shaped (b : bool) (s : string) :
  all_chars slug_char s = true ->
  has_adjacent RealTimeMain.is_hyphen s = false ->
  (b = true -> starts_with_char RealTimeMain.is_hyphen s = false) ->
  Py.re_sub_runs (fun c => negb (Py.islower c || Py.isdigit c)) "-" b s = s.
Proof.
  revert b. induction s as [|c s IH]; intros b; [done|].
  cbn [all_chars has_adjacent starts_with_char Py.re_sub_runs].
  intros [Hc Hs]%andb_true_iff [Hcs Hadj]%orb_false_iff Hb.
  rewrite (proj2 (slug_char_facts _ Hc)).
  destruct (RealTimeMain.is_hyphen c) eqn:Hh.
  - destruct b; [by specialize (Hb eq_refl)|].
    apply Ascii.eqb_eq in Hh as ->.
    rewrite append_hyphen. f_equal. by apply IH.
  - f_equal. by apply IH.
Qed.

Lemma url_slug_of_shaped (s : string) :
  slug_shaped s -> RealTimeMain.url_slug s = s.
Proof.
  intros (Hall & Hst & Hen & Hadj).
  unfold RealTimeMain.url_slug, Py.strip_with.
  rewrite (lower_of_slug_chars _ Hall), (re_sub_runs_of_shaped false s) by done.
  by rewrite lstrip_with_id, rstrip_with_id.
Qed.

(** X1.  The URL slug of the SERP preview consists of lower-case letters,
    digits and hyphens only, has no hyphen at either end and no two hyphens
    in a row; slugs of that shape are left as they are, so computing the
    slug of a slug changes nothing. *)
Theorem url_slug_shape (seed_keyword : string) :
  slug_shaped (RealTimeMain.url_slug seed_keyword)
  /\ RealTimeMain.url_slug (RealTimeMain.url_slug seed_keyword)
     = RealTimeMain.url_slug seed_keyword
  /\ (forall s, slug_shaped s -> RealTimeMain.url_slug s = s).
Proof.
  split; [apply url_slug_is_shaped|].
  split; [apply url_slug_of_shaped, url_slug_is_shaped|].
  apply url_slug_of_shaped.
Qed.

Lemma url_slug_shape_witness :
  slug_shaped "content-marketing-101"
  /\ RealTimeMain.url_slug "content-marketing-101" = "content-marketing-101".
Proof.
  assert (Hs : slug_shaped "content-marketing-101") by (by repeat split).
  split; [exact Hs|].
  exact (proj2 (proj2 (url_slug_shape "")) "content-marketing-101" Hs).
Defined.

(** X2.  The URL slug of the offline analyzer consists of lower-case
    letters, digits and hyphens only, with no two hyphens in a row; it is
    not trimmed: it starts with a hyphen exactly when the cleaned keyword
    starts with whitespace.  Cleaning a cleaned text changes nothing. *)
Theorem generate_url_slug_shape (keyword : string) :
  all_chars slug_char (SEOAnalyzer.generate_url_slug keyword) = true
  /\ has_adjacent RealTimeMain.is_hyphen (SEOAnalyzer.generate_url_slug keyword)
     = false
  /\ starts_with_char RealTimeMain.is_hyphen (SEOAnalyzer.generate_url_slug keyword)
     = starts_with_char Py.isspace (SEOAnalyzer.clean_text keyword)
  /\ SEOAnalyzer.clean_text (SEOAnalyzer.clean_text keyword)
     = SEOAnalyzer.clean_text keyword.
Proof.
  unfold SEOAnalyzer.generate_url_slug. cbv zeta.
  pose proof (clean_text_chars keyword) as Hc.
  split; [|split; [|split]].
  - apply re_sub_runs_all_chars; [reflexivity|].
    revert Hc. apply all_chars_impl. intros c Hc. by apply clean_char_slug.
  - apply re_sub_runs_no_adjacent.
    revert Hc. apply all_chars_impl. intros c Hc. by apply clean_char_slug.
  - destruct (SEOAnalyzer.clean_text keyword) as [|c r]; [reflexivity|].
    cbn [all_chars] in Hc. apply andb_true_iff in Hc as [Hc _].
    destruct (clean_char_slug c Hc) as (_ & _ & Hh).
    cbn [Py.re_sub_runs starts_with_char].
    destruct (Py.isspace c) eqn:Hs; [reflexivity|].
    cbn [starts_with_char]. by apply Hh.
  - by apply clean_text_fixed.
Qed.

Lemma prefix_empty (s : string) : String.prefix "" s = true.
Proof. by destruct s. Qed.

Lemma prefix_append (a b : string) : String.prefix a (a +:+ b) = true.
Proof.
  induction a as [|c a IH]; [apply prefix_empty|].
  simpl. by destruct (ascii_dec c c).
Qed.

Lemma append_String c (a b : string) : String c a +:+ b = String c (a +:+ b).
Proof. reflexivity. Qed.

Lemma slice_to_rest (n : nat) (s : string) :
  exists rest, s = Py.slice_to n s +:+ rest.
Proof.
  revert s. induction n as [|n IH]; intros [|c s]; cbn [Py.slice_to];
    try (by eexists).
  destruct (IH s) as [rest Hrest]. exists rest.
  by rewrite append_String, <- Hrest.
Qed.

Lemma truncation_shown (n : nat) (text : string) :
  shown_as n text
    (if (n <? String.length text)%nat
     then Py.slice_to n text +:+ "..." else text).
Proof.
  destruct (Nat.ltb_spec n (String.length text)) as [Hlt|Hge].
  - right. split; [done|].
    destruct (slice_to_rest n text) as [rest Hrest].
    exists (Py.slice_to n text), rest. split; [done|].
    split; [rewrite slice_to_length; lia|done].
  - left. by split.
Qed.

(** X3.  The title shown in the SERP preview is the title itself when it
    has at most 60 characters, and otherwise its first 60 characters
    followed by three dots, 63 characters in all; likewise for the meta
    description with 160 and 163.  This holds of the preview of the
    real-time app and of the snippet of the offline analyzer, which also
    reports the lengths of the untruncated texts. *)
Theorem serp_display_lengths (title meta url : string) :
  shown_as 60 title (RealTimeMain.title_display title)
  /\ shown_as 160 meta (RealTimeMain.meta_display meta)
  /\ shown_as 60 title
       (SEOAnalyzer.snippet_title (SEOAnalyzer.preview_serp_snippet title meta url))
  /\ shown_as 160 meta
       (SEOAnalyzer.snippet_meta_description
          (SEOAnalyzer.preview_serp_snippet title meta url))
  /\ String.length (RealTimeMain.title_display title)
     = (if (60 <? String.length title)%nat then 63 else String.length title)
  /\ String.length (RealTimeMain.meta_display meta)
     = (if (160 <? String.length meta)%nat then 163 else String.length meta)
  /\ String.length (RealTimeMain.title_display title) <= 63
  /\ String.length (RealTimeMain.meta_display meta) <= 163
  /\ SEOAnalyzer.snippet_url (SEOAnalyzer.preview_serp_snippet title meta url)
     = url
  /\ SEOAnalyzer.title_length (SEOAnalyzer.preview_serp_snippet title meta url)
     = String.length title
  /\ SEOAnalyzer.meta_length (SEOAnalyzer.preview_serp_snippet title meta url)
     = String.length meta.
Proof.
  assert (Hlen : forall n s,
            String.length (if (n <? String.length s)%nat
                           then Py.slice_to n s +:+ "..." else s)
            = if (n <? String.length s)%nat then n + 3 else String.length s).
  { intros n s. destruct (n <? String.length s)%nat eqn:Hn; [|reflexivity].
    apply Nat.ltb_lt in Hn.
    rewrite append_length, slice_to_length. simpl. lia. }
  unfold RealTimeMain.title_display, RealTimeMain.meta_display.
  pose proof (Hlen 60 title) as H1. pose proof (Hlen 160 meta) as H2.
  split; [apply truncation_shown|]. split; [apply truncation_shown|].
  split; [apply truncation_shown|]. split; [apply truncation_shown|].
  split; [exact H1|]. split; [exact H2|].
  split.
  { rewrite H1. destruct (60 <? _)%nat eqn:Hn; [lia|apply Nat.ltb_ge in Hn; lia]. }
  split.
  { rewrite H2. destruct (160 <? _)%nat eqn:Hn; [lia|apply Nat.ltb_ge in Hn; lia]. }
  repeat split.
Qed.

(** ** The request methods *)

Lemma truthy_spec (s : string) : truthy s = true <-> s <> "".
Proof.
  unfold truthy. rewrite negb_true_iff. apply String.eqb_neq.
Qed.

Lemma usable_Some (r : reply) (d : list string) :
  usable r = Some d -> r = Response 200 (Some d).
Proof.
  destruct r as [|code data1]; [discriminate|].
  destruct (decide (code = 200%Z)) as [->|Hne].
  - destruct data1 as [[|x l]|]; simpl; congruence.
  - intros Hu. exfalso.
    destruct code as [|q|q]; cbn in Hu; try discriminate Hu.
    repeat (destruct q as [q|q|]; cbn in Hu; try discriminate Hu).
    by apply Hne.
Qed.

(** [list(set(l))[:n]] has at most [n] members, all different and all
    from [l]. *)
Lemma capped_set_facts set_iter (n : nat) (l : list string) :
  set_order set_iter ->
  length (take n (set_iter (list_to_set l))) <= n
  /\ NoDup (take n (set_iter (list_to_set l)))
  /\ (forall x, x ∈ take n (set_iter (list_to_set l)) -> x ∈ l)
  /\ (length (take n (set_iter (list_to_set l))) < n ->
      forall x, x ∈ l -> x ∈ take n (set_iter (list_to_set l))).
Proof.
  intros Hord. split; [rewrite length_take; lia|].
  split.
  { eapply sublist_NoDup; [|apply sublist_take].
    rewrite (Hord _). apply NoDup_elements. }
  split.
  { intros x Hx%(subseteq_take n).
    by rewrite (Hord _), elem_of_elements, elem_of_list_to_set in Hx. }
  rewrite length_take. intros Hlen x Hx.
  rewrite take_ge by lia.
  by rewrite (Hord _), elem_of_elements, elem_of_list_to_set.
Qed.

(** X4.  [get_google_autocomplete] returns at most 20 suggestions, taken
    from a reply with status 200, none of them empty and none equal to the
    keyword asked for; a raised exception or another status gives the empty
    list. *)
Theorem autocomplete_suggestions (r : reply) (keyword : string) :
  length (RealTimeFetch.get_google_autocomplete r keyword) <= 20
  /\ (forall s, s ∈ RealTimeFetch.get_google_autocomplete r keyword ->
                s <> "" /\ s <> keyword
                /\ exists data1, r = Response 200 (Some data1) /\ s ∈ data1)
  /\ (usable r = None -> RealTimeFetch.get_google_autocomplete r keyword = []).
Proof.
  unfold RealTimeFetch.get_google_autocomplete.
  split; [destruct r; [simpl; lia|rewrite length_take; lia]|].
  split.
  - intros s Hs. destruct r as [|code data1]; [by apply not_elem_of_nil in Hs|].
    apply (subseteq_take 20) in Hs.
    destruct (usable (Response code data1)) as [d|] eqn:Hu;
      [|by apply not_elem_of_nil in Hs].
    apply list_elem_of_In, filter_In in Hs as [Hin Hs].
    apply andb_true_iff in Hs as [Ht Hne].
    apply truthy_spec in Ht. apply negb_true_iff, String.eqb_neq in Hne.
    repeat split; try done.
    exists d. split; [by apply usable_Some|by apply list_elem_of_In].
  - intros Hu. destruct r; [reflexivity|]. by rewrite Hu.
Qed.

Lemma related_of_variations_from google (keyword : string)
    (vs acc : list string) (s : string) :
  s ∈ foldl (fun related variation =>
               match usable (google variation) with
               | Some data1 =>
                   related ++
                   List.filter
                     (fun s => truthy s
                               && Py.contains (Py.lower keyword) (Py.lower s))
                     data1
               | None => related
               end)
            acc vs
  <-> s ∈ acc
      \/ exists v data1,
           v ∈ vs /\ usable (google v) = Some data1 /\ s ∈ data1
           /\ s <> ""
           /\ Py.contains (Py.lower keyword) (Py.lower s) = true.
Proof.
  revert acc. induction vs as [|v vs IH]; intros acc; cbn [foldl].
  - split; [by left|]. intros [H|(v & d & Hv & _)]; [done|].
    by apply not_elem_of_nil in Hv.
  - rewrite IH. split.
    + intros [H|(v' & d & Hv & Hu & Hrest)].
      * destruct (usable (google v)) as [d|] eqn:Hu; [|by left].
        apply elem_of_app in H as [H|H]; [by left|]. right.
        apply list_elem_of_In, filter_In in H as [Hin [Ht Hc]%andb_true_iff].
        exists v, d. split; [apply list_elem_of_here|].
        split; [done|]. split; [by apply list_elem_of_In|].
        split; [by apply truthy_spec|done].
      * right. exists v', d. split; [by apply list_elem_of_further|done].
    + intros [H|(v' & d & Hv & Hu & Hin & Hne & Hc)].
      * left. destruct (usable (google v)); [|done].
        apply elem_of_app. by left.
      * apply elem_of_cons in Hv as [->|Hv].
        -- left. rewrite Hu. apply elem_of_app. right.
           apply list_elem_of_In, filter_In. rewrite <- list_elem_of_In.
           split; [done|]. apply andb_true_iff. by rewrite truthy_spec.
        -- right. by exists v', d.
Qed.

(** X5.  [get_google_related_searches] returns at most 30 different
    suggestions; each one is not empty, contains the keyword when both are
    lower-cased, and comes from the usable reply to one of the ten
    variations.  A variation whose request fails is skipped and the others
    still count: unless the cut at 30 applies, every non-empty suggestion
    that contains the keyword, from the usable reply to any variation, is
    returned, whatever becomes of the other requests.  When all requests
    fail the result is empty. *)
Theorem related_searches set_iter google (keyword : string) :
  set_order set_iter ->
  let related :=
    RealTimeFetch.get_google_related_searches google set_iter keyword in
  length related <= 30
  /\ NoDup related
  /\ length (RealTimeFetch.variations keyword) = 10
  /\ (forall s, s ∈ related ->
        s <> ""
        /\ Py.contains (Py.lower keyword) (Py.lower s) = true
        /\ exists v data1,
             v ∈ RealTimeFetch.variations keyword
             /\ usable (google v) = Some data1 /\ s ∈ data1)
  /\ (length related < 30 ->
      forall v data1 s,
        v ∈ RealTimeFetch.variations keyword ->
        usable (google v) = Some data1 -> s ∈ data1 ->
        s <> "" -> Py.contains (Py.lower keyword) (Py.lower s) = true ->
        s ∈ related)
  /\ ((forall v, v ∈ RealTimeFetch.variations keyword -> usable (google v) = None)
      -> related = []).
Proof.
  intros Hord. cbv zeta.
  unfold RealTimeFetch.get_google_related_searches.
  destruct (capped_set_facts set_iter 30
              (RealTimeFetch.related_of_variations google keyword) Hord)
    as (Hlen & Hnd & Hsub & Hall).
  split; [exact Hlen|]. split; [exact Hnd|]. split; [reflexivity|].
  split; [|split].
  - intros s Hs%Hsub. unfold RealTimeFetch.related_of_variations in Hs.
    apply related_of_variations_from in Hs
      as [Hs|(v & d & Hv & Hu & Hin & Hne & Hc)];
      [by apply not_elem_of_nil in Hs|].
    split; [done|]. split; [done|]. by exists v, d.
  - intros Hlt v d s Hv Hu Hin Hne Hc. apply (Hall Hlt).
    unfold RealTimeFetch.related_of_variations.
    apply related_of_variations_from. right. by exists v, d.
  - intros Hfail.
    destruct (take 30 _) as [|s l] eqn:Ht; [reflexivity|].
    pose proof (Hsub s (list_elem_of_here _ _)) as Hs.
    unfold RealTimeFetch.related_of_variations in Hs.
    apply related_of_variations_from in Hs
      as [Hs|(v & d & Hv & Hu & _)];
      [by apply not_elem_of_nil in Hs|].
    by rewrite (Hfail v Hv) in Hu.
Qed.

(** Nine of the ten requests raise; the suggestion of the tenth is
    returned. *)
Lemma related_searches_witness :
  set_order elements
  /\ length (RealTimeFetch.get_google_related_searches
               (fun query =>
                  if String.eqb query "seo tips"
                  then Response 200 (Some ["SEO tips 2024"; "baking tips"; ""])
                  else Raised)
               elements "seo") < 30
  /\ "SEO tips 2024"
       ∈ RealTimeFetch.get_google_related_searches
           (fun query =>
              if String.eqb query "seo tips"
              then Response 200 (Some ["SEO tips 2024"; "baking tips"; ""])
              else Raised)
           elements "seo".
Proof.
  assert (Hord : set_order elements) by (intros s; reflexivity).
  assert (Hlt : length (RealTimeFetch.get_google_related_searches
               (fun query =>
                  if String.eqb query "seo tips"
                  then Response 200 (Some ["SEO tips 2024"; "baking tips"; ""])
                  else Raised)
               elements "seo") < 30) by (vm_compute; lia).
  split; [exact Hord|]. split; [exact Hlt|].
  apply (proj1 (proj2 (proj2 (proj2 (proj2 (related_searches elements
    (fun query =>
       if String.eqb query "seo tips"
       then Response 200 (Some ["SEO tips 2024"; "baking tips"; ""])
       else Raised)
    "seo" Hord))))) Hlt "seo tips"
    ["SEO tips 2024"; "baking tips"; ""] "SEO tips 2024").
  - unfold RealTimeFetch.variations.
    repeat (first [apply list_elem_of_here|apply list_elem_of_further]).
  - reflexivity.
  - apply list_elem_of_here.
  - discriminate.
  - reflexivity.
Defined.

(** X6.  [get_datamuse_related] returns at most 25 different words, each
    from one of the three replies and only from replies with status 200;
    an exception in any one of the three requests discards the words of the
    others as well: the result is empty. *)
Theorem datamuse_words set_iter (ml lc rc : RealTimeFetch.words_reply) :
  set_order set_iter ->
  let related := RealTimeFetch.get_datamuse_related ml lc rc set_iter in
  length related <= 25
  /\ NoDup related
  /\ (forall w, w ∈ related ->
        exists words,
          (ml = RealTimeFetch.WordsResponse 200 words
           \/ lc = RealTimeFetch.WordsResponse 200 words
           \/ rc = RealTimeFetch.WordsResponse 200 words)
          /\ w ∈ words)
  /\ (ml = RealTimeFetch.WordsRaised \/ lc = RealTimeFetch.WordsRaised
      \/ rc = RealTimeFetch.WordsRaised -> related = []).
Proof.
  intros Hord. cbv zeta. unfold RealTimeFetch.get_datamuse_related.
  assert (Hw : forall r ws w,
             RealTimeFetch.words_of r = Some ws -> w ∈ ws ->
             r = RealTimeFetch.WordsResponse 200 ws).
  { intros [|code ws'] ws w Hr Hin; [discriminate|].
    destruct (decide (code = 200%Z)) as [->|Hne]; [by injection Hr as <-|].
    exfalso. assert (Hnil : ws = []); [|subst ws; by apply not_elem_of_nil in Hin].
    destruct code as [|q|q]; cbn in Hr; try (by injection Hr).
    repeat (destruct q as [q|q|]; cbn in Hr; try (by injection Hr)). }
  destruct (RealTimeFetch.words_of ml) as [w1|] eqn:H1;
    [|repeat split; [simpl; lia|constructor|by intros w ?%not_elem_of_nil]].
  destruct (RealTimeFetch.words_of lc) as [w2|] eqn:H2;
    [|repeat split; [simpl; lia|constructor|by intros w ?%not_elem_of_nil]].
  destruct (RealTimeFetch.words_of rc) as [w3|] eqn:H3;
    [|repeat split; [simpl; lia|constructor|by intros w ?%not_elem_of_nil]].
  cbv zeta.
  destruct (capped_set_facts set_iter 25 ((w1 ++ w2) ++ w3) Hord)
    as (Hlen & Hnd & Hsub & _).
  split; [exact Hlen|]. split; [exact Hnd|]. split.
  - intros w Hin%Hsub. rewrite !elem_of_app in Hin.
    destruct Hin as [[Hin|Hin]|Hin].
    + exists w1. split; [left; by eapply Hw|done].
    + exists w2. split; [right; left; by eapply Hw|done].
    + exists w3. split; [right; right; by eapply Hw|done].
  - intros [-> | [-> | ->]]; discriminate.
Qed.

Lemma datamuse_words_witness :
  set_order elements
  /\ RealTimeFetch.get_datamuse_related
       (RealTimeFetch.WordsResponse 200 ["strategy"; "audience"])
       RealTimeFetch.WordsRaised
       (RealTimeFetch.WordsResponse 200 ["plan"]) elements
     = [].
Proof.
  assert (Hord : set_order elements) by (intros s; reflexivity).
  split; [exact Hord|].
  apply (datamuse_words elements
           (RealTimeFetch.WordsResponse 200 ["strategy"; "audience"])
           RealTimeFetch.WordsRaised
           (RealTimeFetch.WordsResponse 200 ["plan"]) Hord).
  right. by left.
Defined.

Example related_searches_run :
  RealTimeFetch.get_google_related_searches
    (fun query =>
       if String.eqb query "seo tips"
       then Response 200 (Some ["SEO tips 2024"; "baking tips"; ""])
       else Raised)
    elements "seo"
  = ["SEO tips 2024"].
Proof. by vm_compute. Qed.

(** ** The dict of difficulties *)

Section DictFacts.

Context {V : Type}.
Implicit Types (d : list (string * V)) (k : string) (v : V).

Lemma dict_set_keys k v d :
  (Py.dict_set k v d).*1 = if decide (k ∈ d.*1) then d.*1 else d.*1 ++ [k].
Proof.
  induction d as [|[k' v'] d IH]; [reflexivity|].
  cbn [Py.dict_set fmap list_fmap fst].
  destruct (String.eqb_spec k k') as [->|Hne].
  - rewrite decide_True by apply list_elem_of_here. reflexivity.
  - cbn [fmap list_fmap fst]. fold (fmap (M:=list) (@fst string V)).
    rewrite IH. destruct (decide (k ∈ d.*1)) as [Hin|Hnin].
    + rewrite decide_True by (by apply list_elem_of_further). reflexivity.
    + rewrite decide_False; [reflexivity|].
      intros [?|?]%elem_of_cons; congruence.
Qed.

Lemma dict_set_entries k v d (k0 : string) (v0 : V) :
  (k0, v0) ∈ Py.dict_set k v d -> (k0, v0) ∈ d \/ (k0 = k /\ v0 = v).
Proof.
  induction d as [|[k' v'] d IH]; cbn [Py.dict_set].
  - intros [= -> ->]%list_elem_of_singleton. by right.
  - destruct (String.eqb_spec k k') as [->|Hne].
    + intros [[= -> ->]|H]%elem_of_cons; [by right|].
      left. by apply list_elem_of_further.
    + intros [[= -> ->]|H]%elem_of_cons; [left; apply list_elem_of_here|].
      destruct (IH H) as [?|?]; [left; by apply list_elem_of_further|by right].
Qed.

Lemma dict_get_entry k d (default : V) (f : string -> V) :
  (forall k0 v0, (k0, v0) ∈ d -> v0 = f k0) ->
  Py.dict_get k d default = if decide (k ∈ d.*1) then f k else default.
Proof.
  induction d as [|[k' v'] d IH]; intros Hf; [reflexivity|].
  cbn [Py.dict_get fmap list_fmap fst].
  destruct (String.eqb_spec k k') as [->|Hne].
  - rewrite decide_True by apply list_elem_of_here.
    apply Hf, list_elem_of_here.
  - rewrite IH by (intros k0 v0 H; by apply Hf, list_elem_of_further).
    fold (fmap (M:=list) (@fst string V)).
    destruct (decide (k ∈ d.*1)) as [Hin|Hnin].
    + by rewrite decide_True by (by apply list_elem_of_further).
    + rewrite decide_False; [reflexivity|].
      intros [?|?]%elem_of_cons; congruence.
Qed.

End DictFacts.

(** What the loop of [analyze_keyword_difficulty] keeps true. *)
Lemma analyze_from (keywords : list string) (acc : list (string * Q)) :
  let difficulties :=
    foldl (fun difficulties keyword =>
             Py.dict_set keyword
               (RealTimeKeywordAPI.estimate_keyword_difficulty keyword)
               difficulties)
          acc keywords in
  NoDup acc.*1 ->
  (forall k v, (k, v) ∈ acc ->
               v = RealTimeKeywordAPI.estimate_keyword_difficulty k) ->
  NoDup difficulties.*1
  /\ (forall k, k ∈ difficulties.*1 <-> k ∈ acc.*1 \/ k ∈ keywords)
  /\ (forall k v, (k, v) ∈ difficulties ->
                  v = RealTimeKeywordAPI.estimate_keyword_difficulty k)
  /\ (NoDup keywords -> (forall k, k ∈ keywords -> k ∉ acc.*1) ->
      difficulties.*1 = acc.*1 ++ keywords).
Proof.
  cbv zeta. revert acc.
  induction keywords as [|kw kws IH]; intros acc Hnd Hval; cbn [foldl].
  - split; [done|]. split; [|split; [done|]].
    + intros k. split; [by left|]. intros [?|?%not_elem_of_nil]; done.
    + intros _ _. by rewrite app_nil_r.
  - set (acc' := Py.dict_set kw _ acc).
    assert (Hkeys : acc'.*1 = if decide (kw ∈ acc.*1) then acc.*1
                              else acc.*1 ++ [kw])
      by apply dict_set_keys.
    assert (Hnd' : NoDup acc'.*1).
    { rewrite Hkeys. destruct (decide _); [done|].
      apply NoDup_app. split; [done|]. split; [|apply NoDup_singleton].
      intros x Hx ->%list_elem_of_singleton. done. }
    assert (Hval' : forall k v, (k, v) ∈ acc' ->
                      v = RealTimeKeywordAPI.estimate_keyword_difficulty k).
    { intros k v [H|[-> ->]]%dict_set_entries; [by apply Hval|done]. }
    destruct (IH acc' Hnd' Hval') as (H1 & H2 & H3 & H4).
    split; [exact H1|]. split; [|split; [exact H3|]].
    + intros k. rewrite H2, Hkeys, elem_of_cons.
      destruct (decide (kw ∈ acc.*1)) as [Hin|Hnin].
      * split; [tauto|]. intros [?|[->|?]]; tauto.
      * rewrite elem_of_app, list_elem_of_singleton. tauto.
    + intros [Hkw Hkws]%NoDup_cons Hdisj.
      rewrite H4; [| done |].
      * rewrite Hkeys, decide_False by (apply Hdisj, list_elem_of_here).
        by rewrite <- app_assoc.
      * intros k Hk. rewrite Hkeys.
        rewrite decide_False by (apply Hdisj, list_elem_of_here).
        rewrite elem_of_app, list_elem_of_singleton.
        intros [Hin| ->]; [|done].
        by apply (Hdisj k); [apply list_elem_of_further|].
Qed.

Lemma analyze_facts (keywords : list string) :
  let d := RealTimeSEOAnalyzer.analyze_keyword_difficulty keywords in
  NoDup d.*1
  /\ (forall k, k ∈ d.*1 <-> k ∈ keywords)
  /\ (forall k v, (k, v) ∈ d ->
         v = RealTimeKeywordAPI.estimate_keyword_difficulty k).
Proof.
  cbv zeta.
  set (d := RealTimeSEOAnalyzer.analyze_keyword_difficulty keywords).
  assert (Hd : NoDup d.*1
               /\ (forall k, k ∈ d.*1 <-> k ∈ (@nil string) \/ k ∈ keywords)
               /\ (forall k v, (k, v) ∈ d ->
                      v = RealTimeKeywordAPI.estimate_keyword_difficulty k)
               /\ (NoDup keywords ->
                   (forall k, k ∈ keywords -> k ∉ (@nil string)) ->
                   d.*1 = [] ++ keywords)).
  { apply (analyze_from keywords []); [constructor|].
    by intros k v ?%not_elem_of_nil. }
  destruct Hd as (H1 & H2 & H3 & _).
  split; [exact H1|]. split; [|exact H3].
  intros k. rewrite H2. split; [intros [?%not_elem_of_nil|?]; done|by right].
Qed.

(** X7.  The dict built by [analyze_keyword_difficulty] has exactly the
    given keywords as keys, each once and, when the input has no
    repetition, in the order of the input; looking a keyword up gives its
    lexical score, between 10 and 95, and the default 50 of
    [difficulties.get(keyword, 50)] is returned for the other strings
    only. *)
Theorem difficulties_cover_keywords (keywords : list string) :
  let difficulties := RealTimeSEOAnalyzer.analyze_keyword_difficulty keywords in
  NoDup difficulties.*1
  /\ (forall k, k ∈ difficulties.*1 <-> k ∈ keywords)
  /\ (NoDup keywords -> difficulties.*1 = keywords)
  /\ (forall k, k ∈ keywords ->
        Py.dict_get k difficulties 50%Q
        = RealTimeKeywordAPI.estimate_keyword_difficulty k)
  /\ (forall k, k ∉ keywords -> Py.dict_get k difficulties 50%Q = 50%Q)
  /\ (forall k v, (k, v) ∈ difficulties -> (10 <= v <= 95)%Q).
Proof.
  cbv zeta.
  set (d := RealTimeSEOAnalyzer.analyze_keyword_difficulty keywords).
  assert (Hd : NoDup d.*1
               /\ (forall k, k ∈ d.*1 <-> k ∈ (@nil string) \/ k ∈ keywords)
               /\ (forall k v, (k, v) ∈ d ->
                      v = RealTimeKeywordAPI.estimate_keyword_difficulty k)
               /\ (NoDup keywords ->
                   (forall k, k ∈ keywords -> k ∉ (@nil string)) ->
                   d.*1 = [] ++ keywords)).
  { apply (analyze_from keywords []); [constructor|].
    by intros k v ?%not_elem_of_nil. }
  destruct Hd as (H1 & H2 & H3 & H4).
  assert (Hkeys : forall k, k ∈ d.*1 <-> k ∈ keywords).
  { intros k. rewrite H2. split; [intros [?%not_elem_of_nil|?]; done|by right]. }
  split; [exact H1|]. split; [exact Hkeys|].
  split; [intros Hnd; by apply H4; [|intros k _ ?%not_elem_of_nil]|].
  split; [|split].
  - intros k Hk. rewrite (dict_get_entry k _ _ _ H3).
    by rewrite decide_True by (by apply Hkeys).
  - intros k Hk. rewrite (dict_get_entry k _ _ _ H3).
    by rewrite decide_False by (by rewrite Hkeys).
  - intros k v ->%H3. apply lexical_bounds.
Qed.

(** ** Difficulty classes and the keywords of the prompt *)

Lemma lt_spec (x y : Q) : Py.lt x y = true <-> (x < y)%Q.
Proof.
  unfold Py.lt. rewrite negb_true_iff, <- not_true_iff_false, Qle_bool_iff.
  split; [apply Qnot_le_lt|apply Qlt_not_le].
Qed.

Lemma count_if_from (test : Q -> bool) (ds : list Q) (total : nat) :
  foldl (fun total d => if test d then (total + 1)%nat else total) total ds
  = total + length (List.filter test ds).
Proof.
  revert total. induction ds as [|d ds IH]; intros total; cbn [foldl List.filter].
  - cbn [length]. lia.
  - rewrite IH. destruct (test d); cbn [length]; lia.
Qed.

Lemma count_if_filter (test : Q -> bool) (ds : list Q) :
  RealTimeMain.count_if test ds = length (List.filter test ds).
Proof. unfold RealTimeMain.count_if. by rewrite count_if_from. Qed.

(** The three tests of the metrics exclude one another and leave nothing
    out; they are the tests of the colour marks. *)
Lemma class_of_difficulty (d : Q) :
  match RealTimeMain.colour_of d with
  | RealTimeMain.Green =>
      Py.lt d 30 = true /\ Qle_bool 30 d && Py.lt d 70 = false
      /\ Qle_bool 70 d = false
  | RealTimeMain.Yellow =>
      Py.lt d 30 = false /\ Qle_bool 30 d && Py.lt d 70 = true
      /\ Qle_bool 70 d = false
  | RealTimeMain.Red =>
      Py.lt d 30 = false /\ Qle_bool 30 d && Py.lt d 70 = false
      /\ Qle_bool 70 d = true
  end.
Proof.
  unfold RealTimeMain.colour_of.
  destruct (Py.lt d 30) eqn:H30; destruct (Py.lt d 70) eqn:H70;
    destruct (Qle_bool 30 d) eqn:L30; destruct (Qle_bool 70 d) eqn:L70;
    try (repeat split; reflexivity); exfalso;
    repeat match goal with
    | H : Py.lt _ _ = true |- _ => apply lt_spec in H
    | H : Py.lt _ _ = false |- _ =>
        apply not_true_iff_false in H; rewrite lt_spec in H
    | H : Qle_bool _ _ = true |- _ => apply Qle_bool_iff in H
    | H : Qle_bool _ _ = false |- _ =>
        apply not_true_iff_false in H; rewrite Qle_bool_iff in H
    end; lra.
Qed.

Lemma class_counts (ds : list Q) :
  RealTimeMain.easy_count ds + RealTimeMain.medium_count ds
  + RealTimeMain.hard_count ds = length ds
  /\ RealTimeMain.easy_count ds = length (List.filter is_green ds)
  /\ RealTimeMain.medium_count ds = length (List.filter is_yellow ds)
  /\ RealTimeMain.hard_count ds = length (List.filter is_red ds).
Proof.
  unfold RealTimeMain.easy_count, RealTimeMain.medium_count,
         RealTimeMain.hard_count.
  rewrite !count_if_filter.
  induction ds as [|d ds (IH0 & IH1 & IH2 & IH3)]; [done|].
  cbn [List.filter]. unfold is_green, is_yellow, is_red in *.
  pose proof (class_of_difficulty d) as Hd.
  destruct (RealTimeMain.colour_of d); destruct Hd as (-> & -> & ->);
    cbn [length]; repeat split; lia.
Qed.

Lemma count_values_by_key (p : Q -> bool) (g : string -> Q)
    (l : list (string * Q)) :
  (forall k v, (k, v) ∈ l -> g k = v) ->
  length (List.filter p l.*2) = length (List.filter (fun k => p (g k)) l.*1).
Proof.
  induction l as [|[k v] l IH]; intros Hg; [reflexivity|].
  specialize (IH (fun k0 v0 H => Hg k0 v0 (list_elem_of_further _ _ _ H))).
  cbn [fmap list_fmap fst snd List.filter].
  rewrite (Hg k v) by apply list_elem_of_here.
  destruct (p v); cbn [length]; [f_equal|]; exact IH.
Qed.

(** X8.  The three metrics of the analysis tab count every entry of the
    difficulty dict exactly once: easy, medium and hard add up to the number
    of entries, and they are the numbers of analysed keywords whose
    difficulty, looked up as the listing does, gets the green, the yellow
    and the red mark of the colour rule.  (The listing itself shows the
    first 15 keywords of each column only.) *)
Theorem difficulty_classes (keywords : list string) :
  let difficulties := RealTimeSEOAnalyzer.analyze_keyword_difficulty keywords in
  let ds := RealTimeMain.all_difficulties difficulties in
  let mark k := RealTimeMain.colour_of (Py.dict_get k difficulties 50%Q) in
  RealTimeMain.easy_count ds + RealTimeMain.medium_count ds
  + RealTimeMain.hard_count ds = length difficulties
  /\ RealTimeMain.easy_count ds
     = length (List.filter
                 (fun k => match mark k with RealTimeMain.Green => true
                                           | _ => false end)
                 difficulties.*1)
  /\ RealTimeMain.medium_count ds
     = length (List.filter
                 (fun k => match mark k with RealTimeMain.Yellow => true
                                           | _ => false end)
                 difficulties.*1)
  /\ RealTimeMain.hard_count ds
     = length (List.filter
                 (fun k => match mark k with RealTimeMain.Red => true
                                           | _ => false end)
                 difficulties.*1).
Proof.
  cbv zeta.
  set (d := RealTimeSEOAnalyzer.analyze_keyword_difficulty keywords).
  destruct (analyze_facts keywords) as (Hnd & Hkeys & Hval). fold d in Hnd, Hval.
  assert (Hget : forall k v, (k, v) ∈ d -> Py.dict_get k d 50%Q = v).
  { intros k v Hkv. rewrite (dict_get_entry k d _ _ Hval), (Hval k v Hkv).
    rewrite decide_True; [reflexivity|].
    apply list_elem_of_fmap. by exists (k, v). }
  destruct (class_counts (RealTimeMain.all_difficulties d))
    as (H0 & H1 & H2 & H3).
  unfold RealTimeMain.all_difficulties in *.
  split; [by rewrite H0, length_fmap|].
  rewrite H1, H2, H3.
  split; [|split].
  - exact (count_values_by_key is_green _ d Hget).
  - exact (count_values_by_key is_yellow _ d Hget).
  - exact (count_values_by_key is_red _ d Hget).
Qed.

Lemma filter_sublist {A} (p : A -> bool) (l : list A) :
  List.filter p l `sublist_of` l.
Proof.
  induction l as [|x l IH]; cbn [List.filter]; [constructor|].
  destruct (p x); by constructor.
Qed.

Lemma keys_of_filter (test : string * Q -> bool) (d : list (string * Q)) (k : string) :
  k ∈ (List.filter test d).*1 ->
  exists v, (k, v) ∈ d /\ test (k, v) = true.
Proof.
  intros ([k' v] & -> & Hin)%list_elem_of_fmap.
  apply list_elem_of_In, filter_In in Hin as [Hin Ht].
  exists v. by rewrite list_elem_of_In.
Qed.

Lemma keys_filter_by_value (p : Q -> bool) (g : string -> Q)
    (l : list (string * Q)) :
  (forall k v, (k, v) ∈ l -> v = g k) ->
  (List.filter (fun '(kw, diff) => p diff) l).*1
  = List.filter (fun k => p (g k)) l.*1.
Proof.
  induction l as [|[k v] l IH]; intros Hg; [reflexivity|].
  specialize (IH (fun k0 v0 H => Hg k0 v0 (list_elem_of_further _ _ _ H))).
  cbn [fmap list_fmap fst List.filter].
  rewrite <- (Hg k v) by apply list_elem_of_here.
  destruct (p v); cbn [fmap list_fmap fst]; [f_equal|]; exact IH.
Qed.

(** X9.  In [generate_ai_prompt] the easy keywords are the keys of the
    difficulty dict with a lexical score below 30 and the medium keywords
    those with a score from 30 to below 50, both in the order of the dict.
    The secondary keywords are the first 8 easy ones followed by the first
    medium ones, 5 of them at most and no more than what brings the total to
    12 (so 4 when there are 8 easy ones): at most 12 different keywords of
    the analysed list, each with a score below 50. *)
Theorem secondary_keywords_easy (keywords : list string) :
  let difficulties := RealTimeSEOAnalyzer.analyze_keyword_difficulty keywords in
  let easy := RealTimeMain.easy_keywords difficulties in
  let medium := RealTimeMain.medium_keywords difficulties in
  let secondary := RealTimeMain.secondary_keywords difficulties in
  let score := RealTimeKeywordAPI.estimate_keyword_difficulty in
  easy = List.filter (fun k => Py.lt (score k) 30) difficulties.*1
  /\ medium
     = List.filter (fun k => Qle_bool 30 (score k) && Py.lt (score k) 50)
                   difficulties.*1
  /\ secondary
     = take 8 easy ++ take ((12 - length (take 8 easy)) `min` 5) medium
  /\ length secondary <= 12
  /\ NoDup secondary
  /\ (forall k, k ∈ secondary -> k ∈ keywords /\ (score k < 50)%Q)
  /\ (8 <= length easy ->
      secondary = take 8 easy ++ take 4 medium)
  /\ (length easy <= 7 ->
      secondary = easy ++ take 5 medium).
Proof.
  cbv zeta.
  set (d := RealTimeSEOAnalyzer.analyze_keyword_difficulty keywords).
  destruct (analyze_facts keywords)
    as (Hnd & Hkeys & Hval). fold d in Hnd, Hkeys, Hval.
  assert (Heasy : forall k, k ∈ RealTimeMain.easy_keywords d ->
            k ∈ keywords
            /\ (RealTimeKeywordAPI.estimate_keyword_difficulty k < 30)%Q).
  { intros k (v & Hin & Ht)%keys_of_filter. apply lt_spec in Ht.
    rewrite <- (Hval _ _ Hin). split; [|done].
    apply Hkeys, list_elem_of_fmap. by exists (k, v). }
  assert (Hmed : forall k, k ∈ RealTimeMain.medium_keywords d ->
            k ∈ keywords
            /\ (30 <= RealTimeKeywordAPI.estimate_keyword_difficulty k < 50)%Q).
  { intros k (v & Hin & [Hle Ht]%andb_true_iff)%keys_of_filter.
    apply lt_spec in Ht. apply Qle_bool_iff in Hle.
    rewrite <- (Hval _ _ Hin). split; [|done].
    apply Hkeys, list_elem_of_fmap. by exists (k, v). }
  assert (Hnde : NoDup (RealTimeMain.easy_keywords d)).
  { eapply sublist_NoDup; [exact Hnd|]. apply fmap_sublist, filter_sublist. }
  assert (Hndm : NoDup (RealTimeMain.medium_keywords d)).
  { eapply sublist_NoDup; [exact Hnd|]. apply fmap_sublist, filter_sublist. }
  assert (Hsec : RealTimeMain.secondary_keywords d
                 = take 8 (RealTimeMain.easy_keywords d)
                   ++ take ((12 - length (take 8 (RealTimeMain.easy_keywords d)))
                            `min` 5)
                        (RealTimeMain.medium_keywords d)).
  { unfold RealTimeMain.secondary_keywords.
    rewrite take_app_ge by (rewrite length_take; lia).
    by rewrite take_take. }
  split.
  { exact (keys_filter_by_value (fun v => Py.lt v 30) _ d Hval). }
  split.
  { exact (keys_filter_by_value (fun v => Qle_bool 30 v && Py.lt v 50) _ d Hval). }
  split; [exact Hsec|].
  split; [unfold RealTimeMain.secondary_keywords; rewrite length_take; lia|].
  split.
  { unfold RealTimeMain.secondary_keywords.
    eapply sublist_NoDup; [|apply sublist_take].
    apply NoDup_app. split; [|split].
    - eapply sublist_NoDup; [exact Hnde|apply sublist_take].
    - intros k [_ He]%(subseteq_take 8)%Heasy [_ Hm]%(subseteq_take 5)%Hmed. lra.
    - eapply sublist_NoDup; [exact Hndm|apply sublist_take]. }
  split.
  { unfold RealTimeMain.secondary_keywords. intros k Hk%(subseteq_take 12).
    apply elem_of_app in Hk as [Hk%(subseteq_take 8)|Hk%(subseteq_take 5)].
    - destruct (Heasy k Hk). split; [done|lra].
    - destruct (Hmed k Hk). split; [done|lra]. }
  split.
  - intros Hge. rewrite Hsec, length_take.
    by replace ((12 - 8 `min` length (RealTimeMain.easy_keywords d)) `min` 5)
      with 4 by lia.
  - intros Hle. rewrite Hsec, length_take.
    rewrite (take_ge (RealTimeMain.easy_keywords d)) by lia.
    by replace ((12 - 8 `min` length (RealTimeMain.easy_keywords d)) `min` 5)
      with 5 by lia.
Qed.

(** ** Difficulty from a result count *)






(** ** The offline heuristic *)

Lemma word_frequencies_positive (word : string) (f : Z) :
  SEOAnalyzer.word_frequencies !! word = Some f -> (0 < f)%Z.
Proof.
  assert (Hall : map_Forall (fun _ f => (0 < f)%Z) SEOAnalyzer.word_frequencies)
    by (apply (bool_decide_unpack _); by vm_compute).
  apply Hall.
Qed.

Lemma total_frequency_nonneg (tokens : list string) :
  (0 <= Policy.total_frequency tokens)%Z.
Proof.
  unfold Policy.total_frequency, Policy.table_frequency, default.
  induction tokens as [|w ws IH]; cbn [foldr]; [lia|].
  set (rest := foldr _ _ ws) in *.
  destruct (SEOAnalyzer.word_frequencies !! w) as [f|] eqn:Hf;
    cbn [from_option].
  - apply word_frequencies_positive in Hf. unfold id. lia.
  - lia.
Qed.

Lemma total_frequency_unknown (tokens : list string) :
  Forall (fun w => SEOAnalyzer.word_frequencies !! w = None) tokens ->
  Policy.total_frequency tokens = 0%Z.
Proof.
  unfold Policy.total_frequency, Policy.table_frequency.
  induction 1 as [|w ws Hw _ IH]; cbn [foldr]; [reflexivity|].
  rewrite Hw, IH. reflexivity.
Qed.

(** X11.  In the offline heuristic the three parts lie in [0,50], [0,30]
    and [0,20], so their sum is already in [0,100] and the final clamp
    changes nothing; a keyword none of whose cleaned tokens is in the
    frequency table scores at most 50. *)
Theorem offline_score_parts (keyword : string) :
  let tokens := Py.split (SEOAnalyzer.clean_text keyword) in
  let frequency_score :=
    Qmin (inject_Z (Policy.total_frequency tokens) / 10000) 50 in
  let length_score := Qmax 0 (30 - 5 * Policy.token_count tokens) in
  let word_length_score := Qmax 0 (20 - 2 * Policy.avg_token_length tokens) in
  exists d,
    SEOAnalyzer.estimate_keyword_difficulty keyword = Some d
    /\ (d == frequency_score + length_score + word_length_score)%Q
    /\ (0 <= frequency_score <= 50)%Q
    /\ (0 <= length_score <= 30)%Q
    /\ (0 <= word_length_score <= 20)%Q
    /\ (Forall (fun w => SEOAnalyzer.word_frequencies !! w = None) tokens ->
        (d <= 50)%Q).
Proof.
  cbv zeta. rewrite offline_completes. cbv zeta.
  eexists. split; [reflexivity|].
  set (tokens := Py.split (SEOAnalyzer.clean_text keyword)).
  pose proof (avg_token_length_nonneg tokens) as Ha.
  pose proof (nat_count_nonneg (length tokens)) as Hw.
  assert (Hf : (0 <= inject_Z (Policy.total_frequency tokens) / 10000)%Q).
  { apply Qle_shift_div_l; [reflexivity|]. rewrite Qmult_0_l.
    change 0%Q with (inject_Z 0). rewrite <- Zle_Qle.
    apply total_frequency_nonneg. }
  assert (Hu : Forall (fun w => SEOAnalyzer.word_frequencies !! w = None) tokens ->
               (inject_Z (Policy.total_frequency tokens) / 10000 == 0)%Q).
  { intros Hall. by rewrite total_frequency_unknown. }
  unfold Policy.token_count.
  revert Ha Hw Hf Hu.
  generalize (Policy.avg_token_length tokens).
  generalize (inject_Z (Z.of_nat (length tokens))).
  generalize (inject_Z (Policy.total_frequency tokens) / 10000)%Q.
  intros f wc avg Ha Hw Hf Hu.
  split; [solve_minmax|]. split; [solve_minmax|].
  split; [solve_minmax|]. split; [solve_minmax|].
  intros Hall%Hu. solve_minmax.
Qed.

(** X12.  A keyword of five or more words gets the floor 10 of the lexical
    heuristic plus 5 for each vocabulary term present, never more than 45:
    such a keyword is never marked red, and it is marked green when at most
    three vocabulary terms are present. *)
Theorem long_keywords_score_low (keyword : string) :
  5 <= length (Py.split (Py.lower keyword)) ->
  (RealTimeKeywordAPI.estimate_keyword_difficulty keyword
   == 10 + 5 * inject_Z (Z.of_nat (Policy.terms_present keyword)))%Q
  /\ (RealTimeKeywordAPI.estimate_keyword_difficulty keyword <= 45)%Q
  /\ RealTimeMain.colour_of
       (RealTimeKeywordAPI.estimate_keyword_difficulty keyword)
     <> RealTimeMain.Red
  /\ (Policy.terms_present keyword <= 3 ->
      RealTimeMain.colour_of
        (RealTimeKeywordAPI.estimate_keyword_difficulty keyword)
      = RealTimeMain.Green).
Proof.
  intros Hlen.
  assert (Htp : Policy.terms_present keyword <= 7).
  { unfold Policy.terms_present.
    etrans; [apply filter_length_le|]. reflexivity. }
  assert (Hval : (RealTimeKeywordAPI.estimate_keyword_difficulty keyword
            == 10 + 5 * inject_Z (Z.of_nat (Policy.terms_present keyword)))%Q).
  { rewrite lexical_value. unfold Policy.lexical, Policy.token_count.
    pose proof (avg_token_length_nonneg (Py.split (Py.lower keyword))) as Ha.
    assert (Hw : (5 <= inject_Z (Z.of_nat (length (Py.split (Py.lower keyword)))))%Q).
    { change 5%Q with (inject_Z 5). rewrite <- Zle_Qle. lia. }
    assert (Ht : (0 <= inject_Z (Z.of_nat (Policy.terms_present keyword)) <= 7)%Q).
    { split; [apply nat_count_nonneg|].
      change 7%Q with (inject_Z 7). rewrite <- Zle_Qle. lia. }
    revert Ha Hw Ht.
    generalize (Policy.avg_token_length (Py.split (Py.lower keyword))).
    generalize (inject_Z (Z.of_nat (length (Py.split (Py.lower keyword))))).
    generalize (inject_Z (Z.of_nat (Policy.terms_present keyword))).
    intros n wc avg Ha Hw Ht. solve_minmax. }
  assert (Hn : (0 <= inject_Z (Z.of_nat (Policy.terms_present keyword)) <= 7)%Q).
  { split; [apply nat_count_nonneg|].
    change 7%Q with (inject_Z 7). rewrite <- Zle_Qle. lia. }
  split; [exact Hval|]. split; [rewrite Hval; lra|].
  pose proof (class_of_difficulty
                (RealTimeKeywordAPI.estimate_keyword_difficulty keyword)) as Hc.
  split.
  - destruct (RealTimeMain.colour_of _); try discriminate.
    destruct Hc as (_ & _ & Hc%Qle_bool_iff). rewrite Hval in Hc. lra.
  - intros H3.
    assert (Hn3 : (inject_Z (Z.of_nat (Policy.terms_present keyword)) <= 3)%Q).
    { change 3%Q with (inject_Z 3). rewrite <- Zle_Qle. lia. }
    destruct (RealTimeMain.colour_of _); [reflexivity| |].
    + destruct Hc as (Hc & _). apply not_true_iff_false in Hc.
      rewrite lt_spec, Hval in Hc. lra.
    + destruct Hc as (Hc & _). apply not_true_iff_false in Hc.
      rewrite lt_spec, Hval in Hc. lra.
Qed.

Lemma long_keywords_score_low_witness :
  5 <= length (Py.split (Py.lower "best content marketing tools for startups"))
  /\ (RealTimeKeywordAPI.estimate_keyword_difficulty
        "best content marketing tools for startups" <= 45)%Q.
Proof.
  assert (H : 5 <= length (Py.split
                (Py.lower "best content marketing tools for startups")))
    by (vm_compute; lia).
  split; [exact H|].
  exact (proj1 (proj2 (long_keywords_score_low
                         "best content marketing tools for startups" H))).
Defined.

(** ** Synthesized candidates *)

Lemma split_nonspace_nonempty c s :
  Py.isspace c = false -> Py.split (String c s) <> [].
Proof.
  intros Hc. rewrite split_String, Hc.
  destruct s as [|c' s']; [done|].
  destruct (Py.isspace c'); [done|].
  by destruct (Py.split (String c' s')).
Qed.

(** The words of two texts joined by a space are the words of the one
    followed by the words of the other. *)
Lemma split_joined (a b : string) :
  Py.split (a +:+ " " +:+ b) = Py.split a ++ Py.split b.
Proof.
  induction a as [|c a IH].
  - change ("" +:+ " " +:+ b) with (String " " b).
    by rewrite split_String.
  - rewrite append_String, (split_String c (a +:+ " " +:+ b)), (split_String c a).
    destruct (Py.isspace c) eqn:Hc; [exact IH|].
    destruct a as [|c' a'].
    + change ("" +:+ " " +:+ b) with (String " " b).
      change (Py.isspace " ") with true. cbv iota.
      by rewrite split_String.
    + rewrite append_String in *. rewrite IH.
      destruct (Py.isspace c') eqn:Hc'; [reflexivity|].
      destruct (Py.split (String c' a')) as [|w ws] eqn:Hs; [|reflexivity].
      by apply split_nonspace_nonempty in Hs.
Qed.

Lemma fold_datamuse_members (seed : string) (words : list string)
    (acc : gset string) (c : string) :
  c ∈ foldl (fun acc word =>
               acc ∪ {[ word +:+ " " +:+ seed ]} ∪ {[ seed +:+ " " +:+ word ]})
            acc words
  <-> c ∈ acc
      \/ exists w, w ∈ words
                   /\ (c = w +:+ " " +:+ seed \/ c = seed +:+ " " +:+ w).
Proof.
  revert acc. induction words as [|w ws IH]; intros acc; cbn [foldl].
  - split; [by left|]. intros [?|(w & Hw%not_elem_of_nil & _)]; done.
  - rewrite IH, !elem_of_union, !elem_of_singleton. split.
    + intros [[[?|?]|?]|(w' & Hw & Hc)]; [by left| | |].
      * right. exists w. split; [apply list_elem_of_here|by left].
      * right. exists w. split; [apply list_elem_of_here|by right].
      * right. exists w'. split; [by apply list_elem_of_further|done].
    + intros [?|(w' & [->|Hw]%elem_of_cons & Hc)]; [by left; left; left| |].
      * destruct Hc as [->| ->]; [left; left; by right|left; by right].
      * right. by exists w'.
Qed.

Lemma fold_wiki_members (seed : string) (terms : list string)
    (acc : gset string) (c : string) :
  c ∈ foldl (fun acc term =>
               if (length (Py.split term) <=? 3)%nat
               then acc ∪ {[ Py.lower term +:+ " " +:+ seed ]}
                        ∪ {[ seed +:+ " " +:+ Py.lower term ]}
               else acc)
            acc terms
  <-> c ∈ acc
      \/ exists t, t ∈ terms /\ length (Py.split t) <= 3
                   /\ (c = Py.lower t +:+ " " +:+ seed
                       \/ c = seed +:+ " " +:+ Py.lower t).
Proof.
  revert acc. induction terms as [|t ts IH]; intros acc; cbn [foldl].
  - split; [by left|]. intros [?|(w & Hw%not_elem_of_nil & _)]; done.
  - rewrite IH. destruct (Nat.leb_spec (length (Py.split t)) 3) as [Hle|Hgt].
    + rewrite !elem_of_union, !elem_of_singleton. split.
      * intros [[[?|?]|?]|(t' & Ht & Hc)]; [by left| | |].
        -- right. exists t. split; [apply list_elem_of_here|]. split; [done|by left].
        -- right. exists t. split; [apply list_elem_of_here|]. split; [done|by right].
        -- right. exists t'. split; [by apply list_elem_of_further|done].
      * intros [?|(t' & [->|Ht]%elem_of_cons & Hl & Hc)]; [by left; left; left| |].
        -- destruct Hc as [->| ->]; [left; left; by right|left; by right].
        -- right. by exists t'.
    + split.
      * intros [?|(t' & Ht & Hc)]; [by left|].
        right. exists t'. split; [by apply list_elem_of_further|done].
      * intros [?|(t' & [->|Ht]%elem_of_cons & Hl & Hc)]; [by left|lia|].
        right. by exists t'.
Qed.

Lemma candidates_members (api : RealTimeKeywordAPI.t) (seed c : string) :
  c = Py.lower seed
  \/ c ∈ RealTimeKeywordAPI.get_google_autocomplete api seed
  \/ c ∈ RealTimeKeywordAPI.get_google_related_searches api seed
  \/ (exists w, w ∈ RealTimeKeywordAPI.get_datamuse_related api seed
                /\ (c = w +:+ " " +:+ seed \/ c = seed +:+ " " +:+ w))
  \/ (exists t, t ∈ RealTimeKeywordAPI.get_wikipedia_terms api seed
                /\ length (Py.split t) <= 3
                /\ (c = Py.lower t +:+ " " +:+ seed
                    \/ c = seed +:+ " " +:+ Py.lower t))
  <-> c ∈ RealTimeSEOAnalyzer.candidate_keywords api seed.
Proof.
  unfold RealTimeSEOAnalyzer.candidate_keywords. cbv zeta.
  rewrite fold_wiki_members, fold_datamuse_members.
  rewrite !elem_of_union, !elem_of_list_to_set, elem_of_singleton.
  split.
  - intros [?|[?|[?|[?|?]]]]; tauto.
  - intros [[[[[?%not_elem_of_empty|?]|?]|?]|?]|?]; tauto.
Qed.

(** X13.  The candidate set holds the lower-cased seed, the suggestions of
    the two completion sources as they come, and for each semantic word and
    each encyclopedic term of at most 3 words the two phrases that join it
    with the seed (the term lower-cased), and nothing else: a bare word or
    term is never a candidate by itself.  A joined phrase has the tokens of
    both parts. *)
Theorem candidates_characterised (api : RealTimeKeywordAPI.t)
    (seed c : string) :
  (c ∈ RealTimeSEOAnalyzer.candidate_keywords api seed <->
   c = Py.lower seed
   \/ c ∈ RealTimeKeywordAPI.get_google_autocomplete api seed
   \/ c ∈ RealTimeKeywordAPI.get_google_related_searches api seed
   \/ (exists w, w ∈ RealTimeKeywordAPI.get_datamuse_related api seed
                 /\ (c = w +:+ " " +:+ seed \/ c = seed +:+ " " +:+ w))
   \/ (exists t, t ∈ RealTimeKeywordAPI.get_wikipedia_terms api seed
                 /\ length (Py.split t) <= 3
                 /\ (c = Py.lower t +:+ " " +:+ seed
                     \/ c = seed +:+ " " +:+ Py.lower t)))
  /\ (forall w,
        length (Py.split (w +:+ " " +:+ seed))
        = length (Py.split w) + length (Py.split seed)
        /\ length (Py.split (seed +:+ " " +:+ w))
           = length (Py.split seed) + length (Py.split w)).
Proof.
  split.
  - symmetry. apply candidates_members.
  - intros w. by rewrite !split_joined, !length_app.
Qed.

(** ** The pool as a whole *)

Lemma cleaned_set_order_free it1 it2 api seed :
  set_order it1 -> set_order it2 ->
  cleaned_set api seed it1 = cleaned_set api seed it2.
Proof.
  intros H1 H2. apply set_eq. intros m.
  by rewrite (elem_of_cleaned_set it1), (elem_of_cleaned_set it2).
Qed.

Lemma pool_length_size set_iter api seed :
  set_order set_iter ->
  length (RealTimeSEOAnalyzer.generate_real_keywords set_iter api seed)
  = 50 `min` size (cleaned_set api seed set_iter).
Proof.
  intros Hord. rewrite pool_unfold, length_take. f_equal.
  by rewrite (Hord _).
Qed.

(** X14.  For given lists returned by the four sources (how a source cuts
    its own result set is not covered here), the order in which
    [generate_real_keywords] iterates its own sets does not change the size
    of the pool: it is the smaller of 50 and the number of different cleaned
    candidates, the trimmed, lower-cased forms of the candidates that pass
    the filter.  When there are at most 50 of them nothing is cut: the pool
    is a rearrangement of them, two runs give the same members, and every
    candidate that passes the filter is in the pool in its trimmed,
    lower-cased form. *)
Theorem pool_order_independent it1 it2 api seed :
  set_order it1 -> set_order it2 ->
  let pool1 := RealTimeSEOAnalyzer.generate_real_keywords it1 api seed in
  let pool2 := RealTimeSEOAnalyzer.generate_real_keywords it2 api seed in
  let cleaned := cleaned_set api seed elements in
  (forall m, m ∈ cleaned <->
     exists c, c ∈ RealTimeSEOAnalyzer.candidate_keywords api seed
               /\ RealTimeSEOAnalyzer.passes_filter c = true
               /\ m = Py.lower (Py.strip c))
  /\ length pool1 = 50 `min` size cleaned
  /\ length pool2 = 50 `min` size cleaned
  /\ (size cleaned <= 50 ->
      pool1 ≡ₚ elements cleaned /\ pool2 ≡ₚ elements cleaned)
  /\ (length pool1 < 50 ->
      pool1 ≡ₚ pool2
      /\ forall c, c ∈ RealTimeSEOAnalyzer.candidate_keywords api seed ->
                   RealTimeSEOAnalyzer.passes_filter c = true ->
                   Py.lower (Py.strip c) ∈ pool1).
Proof.
  intros H1 H2. cbv zeta.
  assert (H0 : set_order elements) by (intros s; reflexivity).
  assert (Hwhole : forall it, set_order it ->
            size (cleaned_set api seed elements) <= 50 ->
            RealTimeSEOAnalyzer.generate_real_keywords it api seed
            ≡ₚ elements (cleaned_set api seed elements)).
  { intros it Hit Hsz. rewrite pool_unfold.
    rewrite (cleaned_set_order_free it elements) by done.
    rewrite take_ge; [apply Hit|].
    by rewrite (Hit _). }
  split; [intros m; by apply elem_of_cleaned_set|].
  split.
  { rewrite pool_length_size by done.
    by rewrite (cleaned_set_order_free it1 elements). }
  split.
  { rewrite pool_length_size by done.
    by rewrite (cleaned_set_order_free it2 elements). }
  split.
  { intros Hsz. split; by apply Hwhole. }
  intros Hlt.
  assert (Hlen : length (RealTimeSEOAnalyzer.generate_real_keywords it2 api seed)
                 < 50).
  { rewrite pool_length_size in Hlt |- * by done.
    by rewrite (cleaned_set_order_free it2 it1). }
  split.
  - rewrite (pool_not_truncated it1) by done.
    rewrite (pool_not_truncated it2) by done.
    rewrite (H1 _), (H2 _).
    by rewrite (cleaned_set_order_free it1 it2).
  - intros c Hc Hp. rewrite (pool_not_truncated it1) by done.
    rewrite (H1 _), elem_of_elements.
    apply (elem_of_cleaned_set it1); [done|]. by exists c.
Qed.

Lemma pool_order_independent_witness :
  set_order elements
  /\ length (RealTimeSEOAnalyzer.generate_real_keywords
               elements scenario_api "content marketing") < 50
  /\ "content marketing strategy"
       ∈ RealTimeSEOAnalyzer.generate_real_keywords
           elements scenario_api "content marketing".
Proof.
  assert (Hord : set_order elements) by (intros s; reflexivity).
  assert (Hlt : length (RealTimeSEOAnalyzer.generate_real_keywords
                          elements scenario_api "content marketing") < 50)
    by (vm_compute; lia).
  split; [exact Hord|]. split; [exact Hlt|].
  apply (proj2 (proj2 (proj2 (proj2 (proj2
           (pool_order_independent elements elements scenario_api
              "content marketing" Hord Hord)))) Hlt)
           "content marketing strategy").
  - apply candidates_members. right. right. right. left.
    exists "strategy". split; [|by right].
    apply list_elem_of_here.
  - reflexivity.
Defined.



(** ** Titles and headings *)

Lemma lower_title_char (c : ascii) (b : bool) :
  Py.isascii c = true ->
  Py.lower_char (if b then c else Py.upper_char c) = Py.lower_char c
  /\ Py.lower_char (if b then Py.lower_char c else c) = Py.lower_char c.
Proof. destruct b, c as [[] [] [] [] [] [] [] []]; by vm_compute. Qed.

(** On ASCII text [title] changes the case of letters only. *)
Lemma lower_title_from (b : bool) (s : string) :
  all_chars Py.isascii s = true ->
  Py.lower (Py.title_from b s) = Py.lower s.
Proof.
  revert b. induction s as [|c s IH]; intros b Hs; [reflexivity|].
  cbn [all_chars] in Hs. apply andb_true_iff in Hs as [Hc Hs].
  cbn [Py.title_from]. destruct (Py.islower c); [|destruct (Py.isupper c)];
    cbn [Py.lower]; rewrite IH by done; f_equal; by apply lower_title_char.
Qed.

Lemma lower_append (a b : string) :
  Py.lower (a +:+ b) = Py.lower a +:+ Py.lower b.
Proof. induction a as [|c a IH]; [reflexivity|]. simpl. by rewrite IH. Qed.

Lemma prefix_contains (t s : string) :
  String.prefix t s = true -> Py.contains t s = true.
Proof. destruct s; simpl; by intros ->. Qed.

Lemma contains_append_l (t a s : string) :
  Py.contains t s = true -> Py.contains t (a +:+ s) = true.
Proof.
  intros H. induction a as [|c a IH]; [exact H|].
  rewrite append_String. cbn [Py.contains]. by rewrite IH, orb_true_r.
Qed.

Lemma contains_middle (t a b : string) :
  Py.contains t (a +:+ t +:+ b) = true.
Proof. apply contains_append_l, prefix_contains, prefix_append. Qed.

Lemma contains_end (t a : string) : Py.contains t (a +:+ t) = true.
Proof.
  apply contains_append_l, prefix_contains.
  induction t as [|c t IH]; [reflexivity|].
  simpl. by destruct (ascii_dec c c).
Qed.

(** X16.  [suggest_content_structure] gives exactly 5 titles and 8
    headings; each of them contains the title-cased keyword as [title]
    returns it, and the meta description contains the keyword as typed.
    For a keyword of ASCII characters each title and heading also contains
    the keyword when both are lower-cased. *)
Theorem structure_mentions_keyword (keyword : string)
    (related_keywords : list string) :
  let structure :=
    RealTimeSEOAnalyzer.suggest_content_structure keyword related_keywords in
  length (RealTimeSEOAnalyzer.titles structure) = 5
  /\ length (RealTimeSEOAnalyzer.headings structure) = 8
  /\ (forall t,
        t ∈ RealTimeSEOAnalyzer.titles structure
            ++ RealTimeSEOAnalyzer.headings structure ->
        Py.contains (Py.title keyword) t = true)
  /\ Py.contains keyword (RealTimeSEOAnalyzer.meta_description structure) = true
  /\ (all_chars Py.isascii keyword = true ->
      forall t,
        t ∈ RealTimeSEOAnalyzer.titles structure
            ++ RealTimeSEOAnalyzer.headings structure ->
        Py.contains (Py.lower keyword) (Py.lower t) = true).
Proof.
  cbv zeta. split; [reflexivity|]. split; [reflexivity|].
  split; [|split; [apply contains_middle|]].
  - intros t Ht.
    unfold RealTimeSEOAnalyzer.suggest_content_structure in Ht.
    cbn [RealTimeSEOAnalyzer.titles RealTimeSEOAnalyzer.headings app] in Ht.
    repeat (apply elem_of_cons in Ht as [->|Ht]);
      try (by apply not_elem_of_nil in Ht);
      first [apply contains_middle | apply contains_end
            | apply prefix_contains, prefix_append].
  - intros Hascii.
    assert (Hl : Py.lower (Py.title keyword) = Py.lower keyword)
      by (by apply lower_title_from).
    intros t Ht.
    unfold RealTimeSEOAnalyzer.suggest_content_structure in Ht.
    cbn [RealTimeSEOAnalyzer.titles RealTimeSEOAnalyzer.headings app] in Ht.
    repeat (apply elem_of_cons in Ht as [->|Ht]);
      try (by apply not_elem_of_nil in Ht);
      (rewrite ?lower_append, Hl;
       first [apply contains_middle | apply contains_end
             | apply prefix_contains, prefix_append]).
Qed.

(** ** Related keywords of the offline analyzer *)

Lemma insert_desc_perm (x : string * Q) (l : list (string * Q)) :
  SEOAnalyzer.insert_desc x l ≡ₚ x :: l.
Proof.
  induction l as [|y l IH]; [done|].
  cbn [SEOAnalyzer.insert_desc]. destruct (Py.lt x.2 y.2); [|done].
  by rewrite IH, Permutation_swap.
Qed.

Lemma sort_desc_perm (l : list (string * Q)) : SEOAnalyzer.sort_desc l ≡ₚ l.
Proof.
  unfold SEOAnalyzer.sort_desc.
  induction l as [|x l IH]; [done|].
  cbn [foldr]. by rewrite insert_desc_perm, IH.
Qed.

Lemma insert_desc_sorted (x : string * Q) (l : list (string * Q)) :
  StronglySorted key_ge l -> StronglySorted key_ge (SEOAnalyzer.insert_desc x l).
Proof.
  induction 1 as [|y l Hs IH Hy]; cbn [SEOAnalyzer.insert_desc];
    [repeat constructor|].
  destruct (Py.lt x.2 y.2) eqn:Hlt.
  - apply lt_spec in Hlt. constructor; [exact IH|].
    rewrite insert_desc_perm. constructor; [|exact Hy].
    unfold key_ge. lra.
  - apply not_true_iff_false in Hlt. rewrite lt_spec in Hlt.
    apply Qnot_lt_le in Hlt.
    constructor; [by constructor|].
    constructor; [exact Hlt|].
    eapply Forall_impl; [exact Hy|].
    unfold key_ge. intros z Hz. lra.
Qed.

Lemma sort_desc_sorted (l : list (string * Q)) :
  StronglySorted key_ge (SEOAnalyzer.sort_desc l).
Proof.
  unfold SEOAnalyzer.sort_desc.
  induction l as [|x l IH]; cbn [foldr]; [constructor|].
  by apply insert_desc_sorted.
Qed.

Lemma sorted_app_order {A} (R : A -> A -> Prop) (a b : list A) :
  StronglySorted R (a ++ b) -> forall x y, x ∈ a -> y ∈ b -> R x y.
Proof.
  induction a as [|z a IH]; intros Hs x y Hx Hy;
    [by apply not_elem_of_nil in Hx|].
  cbn [app] in Hs. apply StronglySorted_inv in Hs as [Hs Hz].
  apply elem_of_cons in Hx as [->|Hx]; [|by apply IH].
  rewrite Forall_forall in Hz. apply Hz, elem_of_app. by right.
Qed.

Lemma sorted_take {A} (R : A -> A -> Prop) (n : nat) (l : list A) :
  StronglySorted R l -> StronglySorted R (take n l).
Proof.
  intros Hs. revert n. induction Hs as [|x l Hs IH Hx]; intros [|n];
    cbn [take]; try constructor; [apply IH|].
  apply Forall_forall. intros y Hy%(subseteq_take n).
  rewrite Forall_forall in Hx. by apply Hx.
Qed.

Lemma keys_of_scored (f : string -> Q) (l : list string) :
  ((fun k => (k, f k)) <$> l).*1 = l.
Proof. induction l as [|k l IH]; [done|]. cbn [fmap list_fmap]. by f_equal. Qed.

Lemma sorted_keys (f : string -> Q) (l : list (string * Q)) :
  StronglySorted key_ge l ->
  Forall (fun kv => kv.2 = f kv.1) l ->
  StronglySorted (fun a b => (f b <= f a)%Q) l.*1.
Proof.
  induction 1 as [|kv l Hs IH Hkv]; intros Hval; cbn [fmap list_fmap];
    [constructor|].
  apply Forall_cons in Hval as [Hv Hval].
  constructor; [by apply IH|].
  apply Forall_fmap, Forall_forall. intros kv' Hkv'.
  rewrite Forall_forall in Hkv, Hval.
  specialize (Hkv _ Hkv'). specialize (Hval _ Hkv').
  unfold key_ge in Hkv. cbn [compose]. by rewrite <- Hv, <- Hval.
Qed.

Section RelatedFacts.

Variable ratio : string -> string -> Q.
Variable set_iter : gset string -> list string.
Variable api : SEOAnalyzer.sources.
Hypothesis set_iter_order : set_order set_iter.

Lemma scored_from (seed : string) (keywords : list string)
    (acc : list (string * Q)) :
  foldl (fun filtered_keywords keyword =>
           if SEOAnalyzer.keeps_keyword keyword
           then filtered_keywords ++ [(keyword, SEOAnalyzer.calculate_similarity ratio seed keyword)]
           else filtered_keywords)
        acc keywords
  = acc ++ ((fun k => (k, SEOAnalyzer.calculate_similarity ratio seed k))
              <$> List.filter SEOAnalyzer.keeps_keyword keywords).
Proof.
  revert acc. induction keywords as [|k ks IH]; intros acc;
    cbn [foldl List.filter].
  - by rewrite app_nil_r.
  - rewrite IH. destruct (SEOAnalyzer.keeps_keyword k); [|reflexivity].
    by rewrite <- app_assoc.
Qed.

Lemma related_unfold (seed : string) (max_keywords : nat) (use_api : bool) :
  SEOAnalyzer.generate_related_keywords ratio set_iter api seed max_keywords use_api
  = (take (max_keywords * 2) (ranked ratio set_iter api seed use_api)).*1.
Proof.
  unfold SEOAnalyzer.generate_related_keywords, ranked. cbv zeta.
  by rewrite scored_from.
Qed.

Lemma ranked_entries (seed : string) (use_api : bool) (k : string) (v : Q) :
  (k, v) ∈ ranked ratio set_iter api seed use_api <->
  k ∈ SEOAnalyzer.related_candidates set_iter api seed use_api
  /\ SEOAnalyzer.keeps_keyword k = true /\ v = SEOAnalyzer.calculate_similarity ratio seed k.
Proof.
  unfold ranked. rewrite sort_desc_perm, list_elem_of_fmap. split.
  - intros (k' & [= -> ->] & Hin).
    apply list_elem_of_In, filter_In in Hin as [Hin Hk].
    apply list_elem_of_In in Hin.
    by rewrite (set_iter_order _), elem_of_elements in Hin.
  - intros (Hin & Hk & ->). exists k. split; [reflexivity|].
    apply list_elem_of_In, filter_In. split; [|done].
    apply list_elem_of_In. by rewrite (set_iter_order _), elem_of_elements.
Qed.

Lemma ranked_keys_NoDup (seed : string) (use_api : bool) :
  NoDup (ranked ratio set_iter api seed use_api).*1.
Proof.
  unfold ranked. rewrite sort_desc_perm, keys_of_scored.
  eapply sublist_NoDup; [|apply filter_sublist].
  rewrite (set_iter_order _). apply NoDup_elements.
Qed.

Lemma related_facts (seed : string) (max_keywords : nat) (use_api : bool) :
  let result :=
    SEOAnalyzer.generate_related_keywords ratio set_iter api seed
      max_keywords use_api in
  length result <= 2 * max_keywords
  /\ NoDup result
  /\ (forall k, k ∈ result ->
        k ∈ SEOAnalyzer.related_candidates set_iter api seed use_api
        /\ 3 <= String.length k /\ length (Py.split k) <= 6)
  /\ StronglySorted (fun a b => (SEOAnalyzer.calculate_similarity ratio seed b <= SEOAnalyzer.calculate_similarity ratio seed a)%Q) result
  /\ (forall k k',
        k ∈ SEOAnalyzer.related_candidates set_iter api seed use_api ->
        3 <= String.length k -> length (Py.split k) <= 6 ->
        k ∉ result -> k' ∈ result ->
        (SEOAnalyzer.calculate_similarity ratio seed k <= SEOAnalyzer.calculate_similarity ratio seed k')%Q).
Proof.
  cbv zeta. rewrite related_unfold.
  set (n := max_keywords * 2).
  assert (Hkeep : forall k, SEOAnalyzer.keeps_keyword k = true <->
                            3 <= String.length k /\ length (Py.split k) <= 6).
  { intros k. unfold SEOAnalyzer.keeps_keyword.
    rewrite andb_true_iff, !Nat.leb_le. tauto. }
  assert (Hin : forall k, k ∈ (take n (ranked ratio set_iter api seed use_api)).*1 ->
                  (k, SEOAnalyzer.calculate_similarity ratio seed k) ∈ take n (ranked ratio set_iter api seed use_api)).
  { intros k ([k' v] & -> & Hk)%list_elem_of_fmap.
    pose proof Hk as Hk'%(subseteq_take n)%ranked_entries.
    destruct Hk' as (_ & _ & ->). exact Hk. }
  split; [rewrite length_fmap, length_take; lia|].
  split.
  { eapply sublist_NoDup; [apply ranked_keys_NoDup|].
    apply fmap_sublist, sublist_take. }
  split.
  { intros k Hk%Hin%(subseteq_take n)%ranked_entries.
    destruct Hk as (Hc & Hk%Hkeep & _). tauto. }
  split.
  { pose proof (sorted_take key_ge n _ (sort_desc_sorted
      ((fun k => (k, SEOAnalyzer.calculate_similarity ratio seed k))
         <$> List.filter SEOAnalyzer.keeps_keyword
               (set_iter (SEOAnalyzer.related_candidates set_iter api seed use_api)))))
      as Hs.
    fold (ranked ratio set_iter api seed use_api) in Hs.
    assert (Hval : Forall (fun kv => kv.2 = SEOAnalyzer.calculate_similarity ratio seed kv.1)
                          (take n (ranked ratio set_iter api seed use_api))).
    { apply Forall_forall. intros [k v] Hkv%(subseteq_take n).
      by apply ranked_entries in Hkv as (_ & _ & ->). }
    by apply sorted_keys. }
  intros k k' Hc Hlen Htok Hnot Hk'%Hin.
  assert (Hk : (k, SEOAnalyzer.calculate_similarity ratio seed k) ∈ ranked ratio set_iter api seed use_api).
  { apply ranked_entries. split; [done|]. split; [by apply Hkeep|done]. }
  rewrite <- (take_drop n (ranked ratio set_iter api seed use_api)) in Hk.
  apply elem_of_app in Hk as [Hk|Hk].
  { exfalso. apply Hnot, list_elem_of_fmap. by exists (k, SEOAnalyzer.calculate_similarity ratio seed k). }
  pose proof (sort_desc_sorted
      ((fun k => (k, SEOAnalyzer.calculate_similarity ratio seed k))
         <$> List.filter SEOAnalyzer.keeps_keyword
               (set_iter (SEOAnalyzer.related_candidates set_iter api seed use_api))))
    as Hs.
  fold (ranked ratio set_iter api seed use_api) in Hs.
  rewrite <- (take_drop n (ranked ratio set_iter api seed use_api)) in Hs.
  exact (sorted_app_order key_ge _ _ Hs _ _ Hk' Hk).
Qed.

End RelatedFacts.

Lemma fold_modifiers_members (seed : string) (modifiers : list string)
    (acc : gset string) (c : string) :
  c ∈ foldl (fun acc modifier =>
               acc ∪ {[ seed +:+ " " +:+ modifier ]}
                   ∪ {[ modifier +:+ " " +:+ seed ]})
            acc modifiers
  <-> c ∈ acc
      \/ exists m, m ∈ modifiers
                   /\ (c = seed +:+ " " +:+ m \/ c = m +:+ " " +:+ seed).
Proof.
  revert acc. induction modifiers as [|m ms IH]; intros acc; cbn [foldl].
  - split; [by left|]. intros [?|(w & Hw%not_elem_of_nil & _)]; done.
  - rewrite IH, !elem_of_union, !elem_of_singleton. split.
    + intros [[[?|?]|?]|(m' & Hm & Hc)]; [by left| | |].
      * right. exists m. split; [apply list_elem_of_here|by left].
      * right. exists m. split; [apply list_elem_of_here|by right].
      * right. exists m'. split; [by apply list_elem_of_further|done].
    + intros [?|(m' & [->|Hm]%elem_of_cons & Hc)]; [by left; left; left| |].
      * destruct Hc as [->| ->]; [left; left; by right|left; by right].
      * right. by exists m'.
Qed.

(** X17.  The offline analyzer returns at most 2 * max_keywords different
    keywords, each a candidate of at least 3 characters and at most 6
    words, in order of decreasing similarity to the seed; they are the most
    similar ones: a candidate that passes the filter and is left out is no
    more similar to the seed than any keyword returned. *)
Theorem related_keywords_ranked ratio set_iter api (seed : string)
    (max_keywords : nat) (use_api : bool) :
  set_order set_iter ->
  let result :=
    SEOAnalyzer.generate_related_keywords ratio set_iter api seed
      max_keywords use_api in
  let similarity := SEOAnalyzer.calculate_similarity ratio seed in
  length result <= 2 * max_keywords
  /\ NoDup result
  /\ (forall k, k ∈ result ->
        k ∈ SEOAnalyzer.related_candidates set_iter api seed use_api
        /\ 3 <= String.length k /\ length (Py.split k) <= 6)
  /\ StronglySorted (fun a b => (similarity b <= similarity a)%Q) result
  /\ (forall k k',
        k ∈ SEOAnalyzer.related_candidates set_iter api seed use_api ->
        3 <= String.length k -> length (Py.split k) <= 6 ->
        k ∉ result -> k' ∈ result ->
        (similarity k <= similarity k')%Q).
Proof. intros Hord. by apply related_facts. Qed.

(** X18.  For a seed of at most 5 words the phrase made of the seed and the
    modifier "free" is a candidate that passes the filter, with the API
    switched off as well; so the offline analyzer returns at least one
    keyword whenever max_keywords is at least 1. *)
Theorem related_keywords_nonempty ratio set_iter api (seed : string)
    (max_keywords : nat) (use_api : bool) :
  set_order set_iter ->
  length (Py.split seed) <= 5 ->
  1 <= max_keywords ->
  seed +:+ " " +:+ "free"
    ∈ SEOAnalyzer.related_candidates set_iter api seed use_api
  /\ SEOAnalyzer.keeps_keyword (seed +:+ " " +:+ "free") = true
  /\ SEOAnalyzer.generate_related_keywords ratio set_iter api seed
       max_keywords use_api <> [].
Proof.
  intros Hord Htok Hmax.
  assert (Hc : seed +:+ " " +:+ "free"
                 ∈ SEOAnalyzer.related_candidates set_iter api seed use_api).
  { unfold SEOAnalyzer.related_candidates. cbv zeta.
    apply fold_modifiers_members. right. exists "free". split; [|by left].
    unfold SEOAnalyzer.long_tail_modifiers.
    repeat (first [apply list_elem_of_here|apply list_elem_of_further]). }
  assert (Hk : SEOAnalyzer.keeps_keyword (seed +:+ " " +:+ "free") = true).
  { unfold SEOAnalyzer.keeps_keyword.
    rewrite split_joined, length_app, !append_length.
    apply andb_true_iff. rewrite !Nat.leb_le.
    change (length (Py.split "free")) with 1.
    change (String.length " ") with 1. change (String.length "free") with 4.
    lia. }
  split; [exact Hc|]. split; [exact Hk|].
  rewrite related_unfold.
  assert (Hr : (seed +:+ " " +:+ "free",
                SEOAnalyzer.calculate_similarity ratio seed
                  (seed +:+ " " +:+ "free"))
               ∈ ranked ratio set_iter api seed use_api)
    by (by apply ranked_entries).
  destruct (ranked ratio set_iter api seed use_api) as [|kv l];
    [by apply not_elem_of_nil in Hr|].
  destruct max_keywords as [|n]; [lia|]. discriminate.
Qed.

Lemma related_keywords_nonempty_witness :
  set_order elements
  /\ length (Py.split "content marketing") <= 5
  /\ SEOAnalyzer.generate_related_keywords
       (fun _ _ => 0%Q) elements
       {| SEOAnalyzer.get_google_suggestions := fun _ => [];
          SEOAnalyzer.get_related_keywords_from_datamuse := fun _ => [];
          SEOAnalyzer.get_wiki_related_terms := fun _ => [] |}
       "content marketing" 20 false <> [].
Proof.
  assert (Hord : set_order elements) by (intros s; reflexivity).
  assert (Htok : length (Py.split "content marketing") <= 5)
    by (vm_compute; lia).
  split; [exact Hord|]. split; [exact Htok|].
  apply (related_keywords_nonempty (fun _ _ => 0%Q) elements _
           "content marketing" 20 false Hord Htok).
  lia.
Defined.

Lemma related_keywords_ranked_witness :
  set_order elements
  /\ length (SEOAnalyzer.generate_related_keywords
               (fun _ _ => 0%Q) elements
               {| SEOAnalyzer.get_google_suggestions := fun _ => [];
                  SEOAnalyzer.get_related_keywords_from_datamuse := fun _ => [];
                  SEOAnalyzer.get_wiki_related_terms := fun _ => [] |}
               "seo" 20 false) <= 2 * 20.
Proof.
  assert (Hord : set_order elements) by (intros s; reflexivity).
  split; [exact Hord|].
  exact (proj1 (related_keywords_ranked (fun _ _ => 0%Q) elements
    {| SEOAnalyzer.get_google_suggestions := fun _ => [];
       SEOAnalyzer.get_related_keywords_from_datamuse := fun _ => [];
       SEOAnalyzer.get_wiki_related_terms := fun _ => [] |}
    "seo" 20 false Hord)).
Defined.
